(** * The generation page controller ([static/js/main.js])

    A shallow embedding of the four functions of [static/js/main.js] that
    drive one image-generation request, together with the parts of the browser
    they run against: the elements of the page they write to, JSON texts,
    the serialisation of [URLSearchParams], promises and the network.

    Conventions.
    - A JavaScript string is a [string] holding its UTF-8 bytes.
    - A statement that throws is a computation ending in [Throw]; everything
      written to the page before the throw stays written.
    - A promise is modelled by the way it settles ([Fulfilled] / [Rejected]);
      a promise that never settles is outside the model. *)

From Stdlib Require Import String Ascii List Bool Arith NArith Lia.
Import ListNotations.
Local Open Scope string_scope.
Local Open Scope list_scope.

Set Implicit Arguments.
Set Warnings "-register-all".

(** ** JavaScript values and completions *)

(** The values [JSON.parse] can produce, and [undefined].  A number keeps the
    literal it was read from: no arithmetic is ever done on it. *)
Inductive JSValue : Type :=
| JUndefined
| JNull
| JBool (b : bool)
| JNumber (literal : string)
| JString (s : string)
| JArray (elements : list JSValue)
| JObject (members : list (string * JSValue)).

Inductive JSError : Type :=
| TypeError
| SyntaxError.

(** How the evaluation of an expression or statement ends. *)
Inductive Completion (A : Type) : Type :=
| Normal (a : A)
| Throw (e : JSError).

Arguments Normal {A} a.
Arguments Throw {A} e.

(** How a promise settles. *)
Inductive Settled (A : Type) : Type :=
| Fulfilled (a : A)
| Rejected (reason : JSError).

Arguments Fulfilled {A} a.
Arguments Rejected {A} reason.

(** ** Characters *)

Definition LF : string := String (ascii_of_nat 10) "".
Definition TAB : string := String (ascii_of_nat 9) "".
Definition DQUOTE : ascii := ascii_of_nat 34.

Definition code (c : ascii) : nat := nat_of_ascii c.

Definition between (lo hi : nat) (c : ascii) : bool :=
  ((lo <=? code c) && (code c <=? hi))%nat.

Definition is_digit (c : ascii) : bool := between 48 57 c.
Definition is_lower (c : ascii) : bool := between 97 122 c.
Definition is_upper (c : ascii) : bool := between 65 90 c.

Definition snoc (s : string) (c : ascii) : string := (s ++ String c "")%string.

(** Value of a hexadecimal digit, either case. *)
Definition hex_value (c : ascii) : option nat :=
  if is_digit c then Some (code c - 48)
  else if between 97 102 c then Some (code c - 87)
  else if between 65 70 c then Some (code c - 55)
  else None.

(** ** JSON texts: [JSON.parse] *)

Module JSON.

Inductive token : Type :=
| TLBrace | TRBrace | TLBracket | TRBracket | TColon | TComma
| TString (s : string)
| TNumber (literal : string)
| TWord (w : string).

(** *** Number literals
    An optional minus sign; then a single 0, or a digit from 1 to 9 followed
    by any digits; then optionally a dot and at least one digit; then
    optionally e or E, an optional sign and at least one digit. *)

Inductive num_state : Type :=
| NStart | NMinus | NZero | NInt | NDot | NFrac | NExp | NExpSign | NExpDigits
| NBad.

Definition num_step (q : num_state) (c : ascii) : num_state :=
  match q, c with
  | NStart, "-"%char => NMinus
  | (NStart | NMinus), "0"%char => NZero
  | (NStart | NMinus), _ => if is_digit c then NInt else NBad
  | (NZero | NInt), "."%char => NDot
  | (NZero | NInt | NFrac), ("e" | "E")%char => NExp
  | NZero, _ => NBad
  | NInt, _ => if is_digit c then NInt else NBad
  | (NDot | NFrac), _ => if is_digit c then NFrac else NBad
  | NExp, ("+" | "-")%char => NExpSign
  | (NExp | NExpSign | NExpDigits), _ => if is_digit c then NExpDigits else NBad
  | NBad, _ => NBad
  end.

Fixpoint num_run (q : num_state) (s : string) : num_state :=
  match s with
  | EmptyString => q
  | String c s' => num_run (num_step q c) s'
  end.

Definition valid_number (s : string) : bool :=
  match num_run NStart s with
  | NZero | NInt | NFrac | NExpDigits => true
  | _ => false
  end.

(** The characters a number literal is made of. *)
Definition is_number_char (c : ascii) : bool :=
  is_digit c ||
  match c with
  | ("+" | "-" | "." | "e" | "E")%char => true
  | _ => false
  end.

(** *** Code units of [\uXXXX] escapes, written out as UTF-8 *)

Definition byte (n : N) : ascii := ascii_of_N (n mod 256).

Definition utf8 (cp : N) : string :=
  (if cp <? 128 then String (byte cp) ""
   else if cp <? 2048 then
     String (byte (192 + cp / 64)) (String (byte (128 + cp mod 64)) "")
   else if cp <? 65536 then
     String (byte (224 + cp / 4096))
       (String (byte (128 + (cp / 64) mod 64))
          (String (byte (128 + cp mod 64)) ""))
   else
     String (byte (240 + cp / 262144))
       (String (byte (128 + (cp / 4096) mod 64))
          (String (byte (128 + (cp / 64) mod 64))
             (String (byte (128 + cp mod 64)) ""))))%N.

Definition is_high_surrogate (u : N) : bool := ((55296 <=? u) && (u <=? 56319))%N.
Definition is_low_surrogate (u : N) : bool := ((56320 <=? u) && (u <=? 57343))%N.

(** The characters read so far followed by a pending high surrogate, if
    one is waiting for its low half. *)
Definition flush (acc : string) (hi : option N) : string :=
  match hi with
  | Some h => (acc ++ utf8 h)%string
  | None => acc
  end.

Definition emit_unit (acc : string) (hi : option N) (u : N) : string * option N :=
  match hi with
  | Some h =>
      if is_low_surrogate u
      then ((acc ++ utf8 (65536 + (h - 55296) * 1024 + (u - 56320)))%string, None)
      else if is_high_surrogate u then (flush acc hi, Some u)
      else ((flush acc hi ++ utf8 u)%string, None)
  | None =>
      if is_high_surrogate u then (acc, Some u)
      else ((acc ++ utf8 u)%string, None)
  end%N.

(** *** The lexer, one character at a time *)

Inductive lex_state : Type :=
| LDefault
| LWord (acc : string)
| LNumber (acc : string)
| LString (acc : string) (hi : option N)
| LEscape (acc : string) (hi : option N)
| LUnicode (acc : string) (hi : option N) (read : nat) (value : N).

Definition lex_default (c : ascii) : option (list token * lex_state) :=
  match c with
  | " "%char => Some ([], LDefault)
  | "{"%char => Some ([TLBrace], LDefault)
  | "}"%char => Some ([TRBrace], LDefault)
  | "["%char => Some ([TLBracket], LDefault)
  | "]"%char => Some ([TRBracket], LDefault)
  | ":"%char => Some ([TColon], LDefault)
  | ","%char => Some ([TComma], LDefault)
  | "-"%char => Some ([], LNumber (String c ""))
  | _ =>
      if ((code c =? 9) || (code c =? 10) || (code c =? 13))%nat
      then Some ([], LDefault)
      else if Ascii.eqb c DQUOTE then Some ([], LString "" None)
      else if is_digit c then Some ([], LNumber (String c ""))
      else if is_lower c then Some ([], LWord (String c ""))
      else None
  end.

Definition emit (t : token) (r : option (list token * lex_state))
  : option (list token * lex_state) :=
  match r with
  | Some (ts, q) => Some (t :: ts, q)
  | None => None
  end.

Definition lex_step (q : lex_state) (c : ascii) : option (list token * lex_state) :=
  match q with
  | LDefault => lex_default c
  | LWord acc =>
      if is_lower c then Some ([], LWord (snoc acc c))
      else emit (TWord acc) (lex_default c)
  | LNumber acc =>
      if is_number_char c then Some ([], LNumber (snoc acc c))
      else if valid_number acc then emit (TNumber acc) (lex_default c)
      else None
  | LString acc hi =>
      match c with
      | "\"%char => Some ([], LEscape acc hi)
      | _ => if Ascii.eqb c DQUOTE then Some ([TString (flush acc hi)], LDefault)
             else if (code c <? 32)%nat then None
             else Some ([], LString (snoc (flush acc hi) c) None)
      end
  | LEscape acc hi =>
      let plain (n : nat) :=
        Some ([], LString (snoc (flush acc hi) (ascii_of_nat n)) None) in
      match c with
      | "\"%char => plain 92
      | "/"%char => plain 47
      | "b"%char => plain 8
      | "f"%char => plain 12
      | "n"%char => plain 10
      | "r"%char => plain 13
      | "t"%char => plain 9
      | "u"%char => Some ([], LUnicode acc hi 0 0%N)
      | _ => if Ascii.eqb c DQUOTE then plain 34 else None
      end
  | LUnicode acc hi read value =>
      match hex_value c with
      | None => None
      | Some d =>
          let value' := (value * 16 + N.of_nat d)%N in
          if (read =? 3)%nat
          then let '(acc', hi') := emit_unit acc hi value' in
               Some ([], LString acc' hi')
          else Some ([], LUnicode acc hi (S read) value')
      end
  end.

Definition lex_end (q : lex_state) : option (list token) :=
  match q with
  | LDefault => Some []
  | LWord acc => Some [TWord acc]
  | LNumber acc => if valid_number acc then Some [TNumber acc] else None
  | LString _ _ | LEscape _ _ | LUnicode _ _ _ _ => None
  end.

Fixpoint lex (q : lex_state) (text : string) : option (list token) :=
  match text with
  | EmptyString => lex_end q
  | String c text' =>
      match lex_step q c with
      | None => None
      | Some (ts, q') =>
          match lex q' text' with
          | None => None
          | Some rest => Some (ts ++ rest)
          end
      end
  end.

(** *** The parser, one token at a time, with the open containers on a stack *)

Inductive frame : Type :=
| FArray (elements : list JSValue)
| FObject (members : list (string * JSValue)) (key : string).

Inductive parse_state : Type :=
| SValue (stack : list frame)
| SArrayStart (stack : list frame)
| SObjectStart (stack : list frame)
| SKey (stack : list frame) (members : list (string * JSValue))
| SColon (stack : list frame) (members : list (string * JSValue)) (key : string)
| SAfterElement (stack : list frame) (elements : list JSValue)
| SAfterMember (stack : list frame) (members : list (string * JSValue))
| SDone (v : JSValue)
| SError.

(** A value has just been read in full: hand it to the container that was
    waiting for it.  Elements and members are kept latest first. *)
Definition complete (stack : list frame) (v : JSValue) : parse_state :=
  match stack with
  | [] => SDone v
  | FArray elements :: stack' => SAfterElement stack' (v :: elements)
  | FObject members key :: stack' => SAfterMember stack' ((key, v) :: members)
  end.

Definition start_value (stack : list frame) (t : token) : parse_state :=
  match t with
  | TLBracket => SArrayStart stack
  | TLBrace => SObjectStart stack
  | TString s => complete stack (JString s)
  | TNumber n => complete stack (JNumber n)
  | TWord "true" => complete stack (JBool true)
  | TWord "false" => complete stack (JBool false)
  | TWord "null" => complete stack JNull
  | _ => SError
  end.

Definition parse_step (q : parse_state) (t : token) : parse_state :=
  match q, t with
  | SValue stack, _ => start_value stack t
  | SArrayStart stack, TRBracket => complete stack (JArray [])
  | SArrayStart stack, _ => start_value (FArray [] :: stack) t
  | SObjectStart stack, TRBrace => complete stack (JObject [])
  | SObjectStart stack, TString k => SColon stack [] k
  | SKey stack members, TString k => SColon stack members k
  | SColon stack members k, TColon => SValue (FObject members k :: stack)
  | SAfterElement stack elements, TComma => SValue (FArray elements :: stack)
  | SAfterElement stack elements, TRBracket => complete stack (JArray (rev elements))
  | SAfterMember stack members, TComma => SKey stack members
  | SAfterMember stack members, TRBrace => complete stack (JObject (rev members))
  | _, _ => SError
  end.

Definition parse_tokens (ts : list token) : parse_state :=
  fold_left parse_step ts (SValue []).

(** [JSON.parse(text)]: the value, or a thrown [SyntaxError]. *)
Definition parse (text : string) : Completion JSValue :=
  match lex LDefault text with
  | None => Throw SyntaxError
  | Some ts =>
      match parse_tokens ts with
      | SDone v => Normal v
      | _ => Throw SyntaxError
      end
  end.

End JSON.

(** ** The serialisation of [URLSearchParams] *)

Module URLSearchParams.

(** The bytes the [application/x-www-form-urlencoded] serialiser leaves
    as they are. *)
Definition is_unreserved (c : ascii) : bool :=
  is_digit c || is_lower c || is_upper c ||
  match c with
  | ("*" | "-" | "." | "_")%char => true
  | _ => false
  end.

Definition hex_digit (n : nat) : ascii :=
  ascii_of_nat (if (n <? 10)%nat then 48 + n else 55 + n).

Definition encode_byte (c : ascii) : string :=
  if is_unreserved c then String c ""
  else if Ascii.eqb c " " then "+"
  else String "%" (String (hex_digit (code c / 16))
                     (String (hex_digit (code c mod 16)) "")).

Fixpoint encode (s : string) : string :=
  match s with
  | EmptyString => ""
  | String c s' => (encode_byte c ++ encode s')%string
  end.

Definition serialize_pair (p : string * string) : string :=
  (encode (fst p) ++ "=" ++ encode (snd p))%string.

(** [`${searchParams}`]: the pairs in order, joined with [&]. *)
Definition toString (params : list (string * string)) : string :=
  String.concat "&" (map serialize_pair params).

(** *** The reading side: the parser a server applies to a query string *)

Fixpoint percent_decode (s : string) : string :=
  match s with
  | EmptyString => ""
  | String "%" (String a (String b rest) as tail) =>
      match hex_value a, hex_value b with
      | Some x, Some y => String (ascii_of_nat (16 * x + y)) (percent_decode rest)
      | _, _ => String "%" (percent_decode tail)
      end
  | String c rest => String c (percent_decode rest)
  end.

Fixpoint plus_to_space (s : string) : string :=
  match s with
  | EmptyString => ""
  | String c rest => String (if Ascii.eqb c "+" then " "%char else c) (plus_to_space rest)
  end.

Definition decode (s : string) : string := percent_decode (plus_to_space s).

(** The pieces of [s] between occurrences of [sep]. *)
Fixpoint split_on (sep : ascii) (s : string) : list string :=
  match s with
  | EmptyString => [""]
  | String c rest =>
      if Ascii.eqb c sep then "" :: split_on sep rest
      else match split_on sep rest with
           | [] => [String c ""]
           | piece :: pieces => String c piece :: pieces
           end
  end.

(** [s] cut at its first [sep]; everything and nothing when there is none. *)
Fixpoint cut_at (sep : ascii) (s : string) : string * string :=
  match s with
  | EmptyString => ("", "")
  | String c rest =>
      if Ascii.eqb c sep then ("", rest)
      else let '(before, after) := cut_at sep rest in (String c before, after)
  end.

Definition parse_piece (piece : string) : list (string * string) :=
  match piece with
  | EmptyString => []
  | _ => let '(name, value) := cut_at "=" piece in [(decode name, decode value)]
  end.

Definition parse (query : string) : list (string * string) :=
  flat_map parse_piece (split_on "&" query).

(** A request target cut into its path and the pairs of its query. *)
Definition parse_target (target : string) : string * list (string * string) :=
  let '(path, query) := cut_at "?" target in (path, parse query).

End URLSearchParams.

(** ** The page, the network and the log of calls *)

(** What an image element points at: the address written in the page, or an
    object URL handed out by [URL.createObjectURL]. *)
Inductive URLRef : Type :=
| LiteralURL (s : string)
| ObjectURL (id : nat).

(** The elements the script looks up by id, each with the one property the
    script writes.  All seven exist in the page. *)
Record Page : Type := {
  form_submit_disabled : bool;
  loading_display : string;
  result_display : string;
  error_display : string;
  error_details_innerText : string;
  result_image_src : URLRef;
  result_caption_innerHTML : string
}.

(** A response as [fetch] delivers it.  [body] is how reading the bytes of
    the body ends; both [blob()] and [json()] read it. *)
Record Response : Type := {
  ok : bool;
  headers_get : string -> option string;
  body : Settled string
}.

(** Calls observed during a run, oldest first (kept for the proofs only). *)
Inductive Call : Type :=
| CallSetStartLoading
| CallSetStopLoading (isError : bool) (errorMsg : JSValue)
| CallFetch (url : string).

Record World : Type := {
  page : Page;
  object_urls : list string;
  calls : list Call
}.

Definition shown (display : string) : Prop := display = "block".
Definition hidden (display : string) : Prop := display = "none".

(** *** Computations on the world that may throw *)

Definition M (A : Type) : Type := World -> Completion A * World.

Definition ret {A} (a : A) : M A := fun w => (Normal a, w).

Definition bind {A B} (m : M A) (k : A -> M B) : M B :=
  fun w =>
    match m w with
    | (Normal a, w') => k a w'
    | (Throw e, w') => (Throw e, w')
    end.

Definition lift {A} (c : Completion A) : M A := fun w => (c, w).

Declare Scope js_scope.
Delimit Scope js_scope with js.
Notation "x <- m ;; k" := (bind m (fun x => k))
  (at level 61, m at next level, right associativity) : js_scope.
Notation "m ;; k" := (bind m (fun _ => k))
  (at level 61, right associativity) : js_scope.
Local Open Scope js_scope.

Definition update_page (f : Page -> Page) : M unit :=
  fun w => (Normal tt,
            {| page := f (page w); object_urls := object_urls w; calls := calls w |}).

Definition record_call (c : Call) : M unit :=
  fun w => (Normal tt,
            {| page := page w; object_urls := object_urls w; calls := calls w ++ [c] |}).

Definition set_form_submit_disabled (v : bool) : M unit :=
  update_page (fun p =>
    {| form_submit_disabled := v;
       loading_display := loading_display p;
       result_display := result_display p;
       error_display := error_display p;
       error_details_innerText := error_details_innerText p;
       result_image_src := result_image_src p;
       result_caption_innerHTML := result_caption_innerHTML p |}).

Definition set_loading_display (v : string) : M unit :=
  update_page (fun p =>
    {| form_submit_disabled := form_submit_disabled p;
       loading_display := v;
       result_display := result_display p;
       error_display := error_display p;
       error_details_innerText := error_details_innerText p;
       result_image_src := result_image_src p;
       result_caption_innerHTML := result_caption_innerHTML p |}).

Definition set_result_display (v : string) : M unit :=
  update_page (fun p =>
    {| form_submit_disabled := form_submit_disabled p;
       loading_display := loading_display p;
       result_display := v;
       error_display := error_display p;
       error_details_innerText := error_details_innerText p;
       result_image_src := result_image_src p;
       result_caption_innerHTML := result_caption_innerHTML p |}).

Definition set_error_display (v : string) : M unit :=
  update_page (fun p =>
    {| form_submit_disabled := form_submit_disabled p;
       loading_display := loading_display p;
       result_display := result_display p;
       error_display := v;
       error_details_innerText := error_details_innerText p;
       result_image_src := result_image_src p;
       result_caption_innerHTML := result_caption_innerHTML p |}).

Definition set_error_details_innerText (v : string) : M unit :=
  update_page (fun p =>
    {| form_submit_disabled := form_submit_disabled p;
       loading_display := loading_display p;
       result_display := result_display p;
       error_display := error_display p;
       error_details_innerText := v;
       result_image_src := result_image_src p;
       result_caption_innerHTML := result_caption_innerHTML p |}).

Definition set_result_image_src (v : URLRef) : M unit :=
  update_page (fun p =>
    {| form_submit_disabled := form_submit_disabled p;
       loading_display := loading_display p;
       result_display := result_display p;
       error_display := error_display p;
       error_details_innerText := error_details_innerText p;
       result_image_src := v;
       result_caption_innerHTML := result_caption_innerHTML p |}).

Definition set_result_caption_innerHTML (v : string) : M unit :=
  update_page (fun p =>
    {| form_submit_disabled := form_submit_disabled p;
       loading_display := loading_display p;
       result_display := result_display p;
       error_display := error_display p;
       error_details_innerText := error_details_innerText p;
       result_image_src := result_image_src p;
       result_caption_innerHTML := v |}).

(** [URL.createObjectURL(blob)]: registers the blob and returns a fresh
    reference to it.  Nothing in the script ever revokes one. *)
Definition createObjectURL (blob : string) : M URLRef :=
  fun w => (Normal (ObjectURL (length (object_urls w))),
            {| page := page w; object_urls := object_urls w ++ [blob]; calls := calls w |}).

(** *** Promises *)

(** [p.then(onFulfilled)]: the callback runs when [p] is fulfilled; the new
    promise is fulfilled with what the callback returns and rejected with
    what it throws.  A rejection of [p] passes through. *)
Definition then_ {A B} (p : Settled A) (onFulfilled : A -> M B) : M (Settled B) :=
  fun w =>
    match p with
    | Rejected reason => (Normal (Rejected reason), w)
    | Fulfilled a =>
        match onFulfilled a w with
        | (Normal b, w') => (Normal (Fulfilled b), w')
        | (Throw e, w') => (Normal (Rejected e), w')
        end
    end.

(** [p.catch(onRejected)]: the callback runs when [p] is rejected. *)
Definition catch_ {A} (p : Settled A) (onRejected : JSError -> M A) : M (Settled A) :=
  fun w =>
    match p with
    | Fulfilled a => (Normal (Fulfilled a), w)
    | Rejected reason =>
        match onRejected reason w with
        | (Normal a, w') => (Normal (Fulfilled a), w')
        | (Throw e, w') => (Normal (Rejected e), w')
        end
    end.

(** ** The script *)

Section Script.

(** The text of a number ([Number::toString] of the double its literal
    denotes).  Floating point stays out of the model: every result below
    holds whatever this function is. *)
Variable Number_toString : string -> string.

(** *** Conversions and property reads *)

(** The own property [name] of an object made by [JSON.parse]; of two
    members with the same name the later one wins. *)
Definition own_property (name : string) (members : list (string * JSValue))
  : option JSValue :=
  fold_left (fun found m => if String.eqb (fst m) name then Some (snd m) else found)
            members None.

(** [ToString(v)], as template literals and DOM setters apply it.  An array
    joins its elements with commas, [null] standing for the empty text.  An
    object gives ["[object Object]"] through [Object.prototype.toString],
    unless it has an own member named [toString]: a JSON value is never
    callable, so no conversion method is found and a [TypeError] is thrown. *)
Fixpoint ToString (v : JSValue) : Completion string :=
  match v with
  | JUndefined => Normal "undefined"
  | JNull => Normal "null"
  | JBool b => Normal (if b then "true" else "false")
  | JNumber literal => Normal (Number_toString literal)
  | JString s => Normal s
  | JArray elements =>
      (fix join (l : list JSValue) : Completion string :=
         match l with
         | [] => Normal ""
         | e :: rest =>
             match (match e with
                    | JUndefined | JNull => Normal ""
                    | _ => ToString e
                    end) with
             | Throw err => Throw err
             | Normal s =>
                 match rest with
                 | [] => Normal s
                 | _ :: _ =>
                     match join rest with
                     | Throw err => Throw err
                     | Normal r => Normal (s ++ "," ++ r)%string
                     end
                 end
             end
         end) elements
  | JObject members =>
      match own_property "toString" members with
      | Some _ => Throw TypeError
      | None => Normal "[object Object]"
      end
  end.

(** The conversion the [innerText] setter applies to what it is given:
    [null] becomes the empty text, anything else goes through [ToString]. *)
Definition DOMString_of (v : JSValue) : Completion string :=
  match v with
  | JNull => Normal ""
  | _ => ToString v
  end.

(** [v.name], for the names the script reads ([error], [url], [first_name],
    [last_name], [text_model]): none of them is defined by a built-in
    prototype, so only own members of objects can answer.  Reading a
    property of [null] or [undefined] throws. *)
Definition Get (v : JSValue) (name : string) : Completion JSValue :=
  match v with
  | JUndefined | JNull => Throw TypeError
  | JObject members =>
      Normal (match own_property name members with
              | Some x => x
              | None => JUndefined
              end)
  | _ => Normal JUndefined
  end.

(** [JSON.parse(x)] for [x] a header value or [null]; [null] is first
    converted to the text [null]. *)
Definition JSON_parse (x : option string) : Completion JSValue :=
  JSON.parse (match x with Some text => text | None => "null" end).

(** *** [Response] methods *)

Definition blob (response : Response) : Settled string := body response.

(** A leading byte order mark is dropped when the body is decoded. *)
Definition strip_bom (bytes : string) : string :=
  match bytes with
  | String a (String b (String c rest)) =>
      if ((code a =? 239) && (code b =? 187) && (code c =? 191))%nat
      then rest else bytes
  | _ => bytes
  end.

Definition json (response : Response) : Settled JSValue :=
  match body response with
  | Rejected reason => Rejected reason
  | Fulfilled bytes =>
      match JSON.parse (strip_bom bytes) with
      | Normal v => Fulfilled v
      | Throw e => Rejected e
      end
  end.

(** *** [setStartLoading] *)

Definition setStartLoading : M unit :=
  record_call CallSetStartLoading ;;
  set_form_submit_disabled true ;;
  (* Show loading div *)
  set_loading_display "block" ;;
  (* Hide result div *)
  set_result_display "none" ;;
  (* Hide error div *)
  set_error_display "none".

(** *** [setStopLoading]

    [errorMsg] is the second argument as the caller passed it,
    [JUndefined] when it was left out; the default of the parameter
    replaces exactly [undefined]. *)

Definition default_errorMsg : string := "Unknown error 😢".

Definition setStopLoading (isError : bool) (errorMsg : JSValue) : M unit :=
  record_call (CallSetStopLoading isError errorMsg) ;;
  let errorMsg := match errorMsg with
                  | JUndefined => JString default_errorMsg
                  | _ => errorMsg
                  end in
  (* Enable submit button *)
  set_form_submit_disabled false ;;
  (* Hide loading div *)
  set_loading_display "none" ;;
  (* Handle error div *)
  set_error_display (if isError then "block" else "none") ;;
  text <- lift (DOMString_of errorMsg) ;;
  set_error_details_innerText text ;;
  (* Result div *)
  set_result_display (if isError then "none" else "block").

(** *** [onGenerateError] *)

Definition onGenerateError (error : JSValue) : M unit :=
  setStopLoading true error.

(** *** [handleGeneration]

    The three arguments are what [onGenerateClick] reads from the form:
    each is a string, or [undefined] ([None]) when the form has no such
    entry. *)

Definition truthy (v : option string) : bool :=
  match v with
  | Some (String _ _) => true
  | _ => false
  end.

(** [if (v) { queryParams.key = v; }] *)
Definition assign_if_truthy (queryParams : list (string * string))
           (key : string) (v : option string) : list (string * string) :=
  match v with
  | Some s => if truthy v then queryParams ++ [(key, s)] else queryParams
  | None => queryParams
  end.

Definition build_queryParams (background text_model blur : option string)
  : list (string * string) :=
  let queryParams := [] in
  let queryParams := assign_if_truthy queryParams "background" background in
  let queryParams := assign_if_truthy queryParams "text_model" text_model in
  let queryParams := assign_if_truthy queryParams "blur" blur in
  queryParams.

Definition build_url (background text_model blur : option string) : string :=
  let queryParams := build_queryParams background text_model blur in
  let url := "/generate/" in
  if (0 <? length queryParams)%nat
  then (url ++ "?" ++ URLSearchParams.toString queryParams)%string
  else url.

(** [fetch(url)] against a network that settles the request for [url]. *)
Definition fetch (network : string -> Settled Response) (url : string)
  : M (Settled Response) :=
  record_call (CallFetch url) ;;
  ret (network url).

Definition tabs5 : string := (TAB ++ TAB ++ TAB ++ TAB ++ TAB)%string.

(** The template literal assigned to the caption. *)
Definition caption (url first_name last_name text_model : string) : string :=
  ("Background picture by <a href='" ++ url ++ "'>" ++ first_name ++ " "
     ++ last_name ++ " on Unsplash</a>.<br />" ++ LF
     ++ tabs5 ++ "Generated with " ++ text_model ++ " on Hugging Face." ++ LF
     ++ tabs5)%string.

(** The callback given to [response.blob().then]. *)
Definition onBlob (response : Response) (myBlob : string) : M unit :=
  setStopLoading false JUndefined ;;
  objectURL <- createObjectURL myBlob ;;
  set_result_image_src objectURL ;;
  (* Picture credits *)
  pictureCredits <- lift (JSON_parse (headers_get response "x-image-credits")) ;;
  (* Generation information *)
  generationInfo <- lift (JSON_parse (headers_get response "x-generation-parameters")) ;;
  url <- lift (Get pictureCredits "url") ;;
  url <- lift (ToString url) ;;
  first_name <- lift (Get pictureCredits "first_name") ;;
  first_name <- lift (ToString first_name) ;;
  last_name <- lift (Get pictureCredits "last_name") ;;
  last_name <- lift (ToString last_name) ;;
  text_model <- lift (Get generationInfo "text_model") ;;
  text_model <- lift (ToString text_model) ;;
  set_result_caption_innerHTML (caption url first_name last_name text_model).

(** The callback given to [fetch(url).then].  Neither branch returns the
    promise it builds, so the callback returns [undefined] at once and the
    inner chain settles on its own: its rejection reaches no handler of the
    outer chain.  The callback does nothing after starting the inner chain,
    so running that chain in place keeps the order of all effects. *)
Definition onResponse (response : Response) : M unit :=
  if ok response then
    _ <- then_ (blob response) (onBlob response) ;;
    ret tt
  else
    p <- then_ (json response)
           (fun json => error <- lift (Get json "error") ;; onGenerateError error) ;;
    _ <- catch_ p (fun _ => onGenerateError (JString "Unknown error")) ;;
    ret tt.

Definition handleGeneration (network : string -> Settled Response)
           (background text_model blur : option string) : M unit :=
  setStartLoading ;;
  (* Build query params, build URL *)
  let url := build_url background text_model blur in
  (* Fetch image *)
  response <- fetch network url ;;
  p <- then_ response onResponse ;;
  _ <- catch_ p (fun _ => onGenerateError (JString "Unknown error")) ;;
  ret tt.

(** *** Observations on a run *)

Definition run {A} (m : M A) (w : World) : World := snd (m w).
Definition completion {A} (m : M A) (w : World) : Completion A := fst (m w).

Definition is_stop (c : Call) : bool :=
  match c with
  | CallSetStopLoading _ _ => true
  | _ => false
  end.

(** The calls of [setStopLoading] among [cs], oldest first. *)
Definition stops (cs : list Call) : list Call := filter is_stop cs.

(** A message as the contract of [setStopLoading] has it, a string that
    may be left out, as the argument passed for it. *)
Definition message_arg (message : option string) : JSValue :=
  match message with
  | Some s => JString s
  | None => JUndefined
  end.

(** *** [onGenerateClick]

    The submit event carries whether its default action was prevented and
    the form it targets; of the form only the entry list matters, the names
    and values [new FormData(evt.target)] enumerates, in document order.
    The fields of the page are a select and check boxes, so every value is a
    string. *)
Record Event : Type := {
  defaultPrevented : bool;
  target : list (string * string)
}.

(** [o[key] = value] on an object with string values: an existing property
    keeps its place, a new one goes last. *)
Fixpoint set_property (o : list (string * string)) (key value : string)
  : list (string * string) :=
  match o with
  | [] => [(key, value)]
  | (k, v) :: o' =>
      if String.eqb k key then (k, value) :: o'
      else (k, v) :: set_property o' key value
  end.

(** [Object.fromEntries(entries)]: the entries are defined one after the
    other on a fresh object. *)
Definition Object_fromEntries (entries : list (string * string))
  : list (string * string) :=
  fold_left (fun o entry => set_property o (fst entry) (snd entry)) entries [].

(** [o.key] for an object of [Object.fromEntries] and a name that
    [Object.prototype] does not define: [undefined] when [o] has no such
    property. *)
Fixpoint get_property (o : list (string * string)) (key : string) : option string :=
  match o with
  | [] => None
  | (k, v) :: o' => if String.eqb k key then Some v else get_property o' key
  end.

(** What a click leaves: the event, the value returned to the browser, the
    errors written to the console and the world. *)
Record Click : Type := {
  event : Event;
  returned : bool;
  console : list JSError;
  after : World
}.

Definition onGenerateClick (network : string -> Settled Response)
           (evt : Event) (w : World) : Click :=
  let evt := {| defaultPrevented := true; target := target evt |} in
  (* Get parameters *)
  let formParameters := Object_fromEntries (target evt) in
  let background := get_property formParameters "background" in
  let textModel := get_property formParameters "text_model" in
  let blur := get_property formParameters "blur" in
  match handleGeneration network background textModel blur w with
  | (Normal _, w') =>
      {| event := evt; returned := false; console := []; after := w' |}
  | (Throw error, w') =>
      {| event := evt; returned := false; console := [error]; after := w' |}
  end.

(** ** Vocabulary of the statements *)

Import URLSearchParams.

(** The world once [setStartLoading] has run and [fetch(url)] was issued. *)
Definition loading_world (url : string) (w : World) : World :=
  {| page := {| form_submit_disabled := true;
                loading_display := "block";
                result_display := "none";
                error_display := "none";
                error_details_innerText := error_details_innerText (page w);
                result_image_src := result_image_src (page w);
                result_caption_innerHTML := result_caption_innerHTML (page w) |};
     object_urls := object_urls w;
     calls := calls w ++ [CallSetStartLoading; CallFetch url] |}.

(** The world that [onGenerateError(msg)] with a string [msg] makes of
    [loading_world]. *)
Definition failure_world (url : string) (arg : JSValue) (text : string) (w : World)
  : World :=
  {| page := {| form_submit_disabled := false;
                loading_display := "none";
                result_display := "none";
                error_display := "block";
                error_details_innerText := text;
                result_image_src := result_image_src (page w);
                result_caption_innerHTML := result_caption_innerHTML (page w) |};
     object_urls := object_urls w;
     calls := calls w ++ [CallSetStartLoading; CallFetch url; CallSetStopLoading true arg] |}.

(** [sep] does not occur in [s]. *)
Fixpoint avoids (sep : ascii) (s : string) : bool :=
  match s with
  | EmptyString => true
  | String c rest => negb (Ascii.eqb c sep) && avoids sep rest
  end.

(** The entry a parameter is expected to contribute to the query: one pair
    under its name when the value is a non-empty string, none otherwise. *)
Definition present (key : string) (v : option string) : list (string * string) :=
  match v with
  | Some (String c s) => [(key, String c s)]
  | _ => []
  end.

Definition quoted (s : string) : string :=
  String DQUOTE (s ++ String DQUOTE "").

(** The header values of the end-to-end example, written without their
    double quotes:
    [{url:http://u, first_name:A, last_name:B}] and [{text_model:flux}],
    every name and every value between double quotes. *)
Definition credits_header : string :=
  ("{" ++ quoted "url" ++ ":" ++ quoted "http://u" ++ ","
       ++ quoted "first_name" ++ ":" ++ quoted "A" ++ ","
       ++ quoted "last_name" ++ ":" ++ quoted "B" ++ "}")%string.

Definition parameters_header : string :=
  ("{" ++ quoted "text_model" ++ ":" ++ quoted "flux" ++ "}")%string.

Definition substring_of (sub s : string) : Prop :=
  exists before after, s = (before ++ sub ++ after)%string.

(** A run that started from [w], fetched [url] and then called
    [setStopLoading(true, arg)] once, ending in [w'] with the error region
    shown and [text] in its details. *)
Definition ends_in_error (url : string) (arg : JSValue) (text : string)
           (w w' : World) : Prop :=
  calls w' = calls w ++ [CallSetStartLoading; CallFetch url; CallSetStopLoading true arg]
  /\ shown (error_display (page w'))
  /\ error_details_innerText (page w') = text
  /\ hidden (loading_display (page w'))
  /\ hidden (result_display (page w'))
  /\ form_submit_disabled (page w') = false.

(** The value of the last entry named [key], if there is one. *)
Definition last_entry (key : string) (entries : list (string * string))
  : option string :=
  fold_left (fun found entry => if String.eqb (fst entry) key then Some (snd entry)
                                else found)
            entries None.

Definition and_then {A B} (c : Completion A) (k : A -> Completion B) : Completion B :=
  match c with
  | Normal a => k a
  | Throw e => Throw e
  end.

(** The caption the success callback computes from the two headers, or the
    error thrown on the way: the reads and conversions of lines 78 to 89, in
    their order. *)
Definition render_caption (response : Response) : Completion string :=
  and_then (JSON_parse (headers_get response "x-image-credits")) (fun pictureCredits =>
  and_then (JSON_parse (headers_get response "x-generation-parameters")) (fun generationInfo =>
  and_then (Get pictureCredits "url") (fun url =>
  and_then (ToString url) (fun url =>
  and_then (Get pictureCredits "first_name") (fun first_name =>
  and_then (ToString first_name) (fun first_name =>
  and_then (Get pictureCredits "last_name") (fun last_name =>
  and_then (ToString last_name) (fun last_name =>
  and_then (Get generationInfo "text_model") (fun text_model =>
  and_then (ToString text_model) (fun text_model =>
  Normal (caption url first_name last_name text_model))))))))))).

(** The world a successful response whose body was read makes of
    [loading_world], with [shown_caption] in the caption element. *)
Definition success_world (url myBlob shown_caption : string) (w : World) : World :=
  {| page := {| form_submit_disabled := false;
                loading_display := "none";
                result_display := "block";
                error_display := "none";
                error_details_innerText := default_errorMsg;
                result_image_src := ObjectURL (length (object_urls w));
                result_caption_innerHTML := shown_caption |};
     object_urls := object_urls w ++ [myBlob];
     calls := calls w ++ [CallSetStartLoading; CallFetch url;
                          CallSetStopLoading false JUndefined] |}.

(** The world after [onGenerateError(e)] threw at the details and the
    handler of the chain called [onGenerateError("Unknown error")]. *)
Definition retried_failure_world (url : string) (e : JSValue) (w : World) : World :=
  {| page := {| form_submit_disabled := false;
                loading_display := "none";
                result_display := "none";
                error_display := "block";
                error_details_innerText := "Unknown error";
                result_image_src := result_image_src (page w);
                result_caption_innerHTML := result_caption_innerHTML (page w) |};
     object_urls := object_urls w;
     calls := calls w ++ [CallSetStartLoading; CallFetch url;
                          CallSetStopLoading true e;
                          CallSetStopLoading true (JString "Unknown error")] |}.

(** The message [setStopLoading] works with once the default is applied. *)
Definition defaulted (errorMsg : JSValue) : JSValue :=
  match errorMsg with
  | JUndefined => JString default_errorMsg
  | _ => errorMsg
  end.

(** The world [handleGeneration] ends in, by the way the request goes. *)
Definition outcome_world (network : string -> Settled Response) (url : string)
           (w : World) : World :=
  match network url with
  | Rejected _ => failure_world url (JString "Unknown error") "Unknown error" w
  | Fulfilled response =>
      if ok response then
        match body response with
        | Rejected _ => loading_world url w
        | Fulfilled myBlob =>
            success_world url myBlob
              (match render_caption response with
               | Normal c => c
               | Throw _ => result_caption_innerHTML (page w)
               end) w
        end
      else
        match json response with
        | Rejected _ => failure_world url (JString "Unknown error") "Unknown error" w
        | Fulfilled v =>
            match Get v "error" with
            | Throw _ => failure_world url (JString "Unknown error") "Unknown error" w
            | Normal e =>
                match DOMString_of (defaulted e) with
                | Normal text => failure_world url e text w
                | Throw _ => retried_failure_world url e w
                end
            end
        end
  end.

Definition is_fetch (c : Call) : bool :=
  match c with
  | CallFetch _ => true
  | _ => false
  end.

(** The characters a request target may be made of without changing its
    reading: what the serialiser leaves or writes, and the delimiters. *)
Definition is_target_char (c : ascii) : bool :=
  is_unreserved c ||
  match c with
  | ("+" | "%" | "=" | "&" | "?" | "/")%char => true
  | _ => false
  end.

Fixpoint all_chars (f : ascii -> bool) (s : string) : bool :=
  match s with
  | EmptyString => true
  | String c rest => f c && all_chars f rest
  end.

(** Exactly one of the three regions is shown, and the submit control is
    disabled exactly while it is the loading region. *)
Definition one_region (p : Page) : Prop :=
  (shown (loading_display p) /\ hidden (result_display p) /\ hidden (error_display p)
   /\ form_submit_disabled p = true)
  \/ (hidden (loading_display p) /\ shown (result_display p) /\ hidden (error_display p)
      /\ form_submit_disabled p = false)
  \/ (hidden (loading_display p) /\ hidden (result_display p) /\ shown (error_display p)
      /\ form_submit_disabled p = false).

(** ** Proof automation *)

Ltac unfold_script :=
  unfold run, completion, handleGeneration, onResponse, onBlob, onGenerateError,
    fetch, setStartLoading, createObjectURL, then_, catch_, bind, ret, lift,
    record_call, set_form_submit_disabled, set_loading_display,
    set_result_display, set_error_display, set_error_details_innerText,
    set_result_image_src, set_result_caption_innerHTML, update_page.

Ltac case_completions :=
  repeat match goal with
         | |- context [match ?c with Normal _ => _ | Throw _ => _ end] =>
             destruct c; simpl
         end.

(* Case analysis on a scrutinee that contains no other match. *)
Ltac case_innermost :=
  match goal with
  | |- context [match ?x with _ => _ end] =>
      lazymatch x with
      | context [match _ with _ => _ end] => fail
      | _ => destruct x; simpl
      end
  end.

(** ** Properties of the UI state controller *)

(** What [setStopLoading] leaves behind, for any second argument at all:
    the page when the conversion of the message to text succeeds, and the
    page when it throws (the assignments before the throw stay, the result
    region is never reached). *)
Lemma setStopLoading_page (isError : bool) (errorMsg : JSValue) (w : World) :
  let given := match errorMsg with
               | JUndefined => JString default_errorMsg
               | _ => errorMsg
               end in
  let p := page w in
  setStopLoading isError errorMsg w =
  match DOMString_of given with
  | Normal text =>
      (Normal tt,
       {| page := {| form_submit_disabled := false;
                     loading_display := "none";
                     result_display := if isError then "none" else "block";
                     error_display := if isError then "block" else "none";
                     error_details_innerText := text;
                     result_image_src := result_image_src p;
                     result_caption_innerHTML := result_caption_innerHTML p |};
          object_urls := object_urls w;
          calls := calls w ++ [CallSetStopLoading isError errorMsg] |})
  | Throw e =>
      (Throw e,
       {| page := {| form_submit_disabled := false;
                     loading_display := "none";
                     result_display := result_display p;
                     error_display := if isError then "block" else "none";
                     error_details_innerText := error_details_innerText p;
                     result_image_src := result_image_src p;
                     result_caption_innerHTML := result_caption_innerHTML p |};
          object_urls := object_urls w;
          calls := calls w ++ [CallSetStopLoading isError errorMsg] |})
  end.
Proof.
  intros given p. subst given p.
  unfold setStopLoading, bind, lift, record_call, set_form_submit_disabled,
    set_loading_display, set_error_display, set_error_details_innerText,
    set_result_display, update_page; simpl.
  destruct (DOMString_of _); reflexivity.
Qed.

Lemma setStopLoading_message (isError : bool) (message : option string) (w : World) :
  setStopLoading isError (message_arg message) w =
  (Normal tt,
   {| page := {| form_submit_disabled := false;
                 loading_display := "none";
                 result_display := if isError then "none" else "block";
                 error_display := if isError then "block" else "none";
                 error_details_innerText :=
                   match message with Some s => s | None => default_errorMsg end;
                 result_image_src := result_image_src (page w);
                 result_caption_innerHTML := result_caption_innerHTML (page w) |};
      object_urls := object_urls w;
      calls := calls w ++ [CallSetStopLoading isError (message_arg message)] |}).
Proof.
  rewrite setStopLoading_page. destruct message; reflexivity.
Qed.

(** C7.  From any state of the page, [setStartLoading] returns and leaves
    the submit control disabled, the loading region shown, the result and
    error regions hidden and the rest of the page as it was; a second call
    changes nothing on the page. *)
Theorem setStartLoading_spec (w : World) :
  let w' := run setStartLoading w in
  completion setStartLoading w = Normal tt
  /\ form_submit_disabled (page w') = true
  /\ shown (loading_display (page w'))
  /\ hidden (result_display (page w'))
  /\ hidden (error_display (page w'))
  /\ error_details_innerText (page w') = error_details_innerText (page w)
  /\ result_image_src (page w') = result_image_src (page w)
  /\ result_caption_innerHTML (page w') = result_caption_innerHTML (page w)
  /\ page (run setStartLoading w') = page w'.
Proof.
  cbv zeta. unfold shown, hidden. repeat split.
Qed.

(** A message that is a string or is left out always has a text: itself,
    or the default of the parameter. *)
Lemma message_arg_text (message : option string) :
  DOMString_of (defaulted (message_arg message))
  = Normal (match message with Some s => s | None => default_errorMsg end).
Proof. destruct message; reflexivity. Qed.

(** C6, as the script has it.  After a call of [setStopLoading] whose
    message is left out or has a text form (every string, [null], a
    boolean, a number, and every array or object whose conversion to text
    does not throw), for either value of [isError] and any state of the page
    before: the call has returned, the loading region is hidden, the submit
    control is enabled, the error region is shown exactly when [isError] is
    true and hidden exactly when it is false, the result region the other
    way round, and so exactly one of the two is shown and the other is
    hidden. *)
Theorem setStopLoading_regions
        (isError : bool) (errorMsg : JSValue) (text : string) (w : World) :
  DOMString_of (defaulted errorMsg) = Normal text ->
  let w' := run (setStopLoading isError errorMsg) w in
  completion (setStopLoading isError errorMsg) w = Normal tt
  /\ hidden (loading_display (page w'))
  /\ form_submit_disabled (page w') = false
  /\ (shown (error_display (page w')) <-> isError = true)
  /\ (hidden (error_display (page w')) <-> isError = false)
  /\ (shown (result_display (page w')) <-> isError = false)
  /\ (hidden (result_display (page w')) <-> isError = true)
  /\ (shown (error_display (page w')) /\ hidden (result_display (page w'))
      \/ shown (result_display (page w')) /\ hidden (error_display (page w'))).
Proof.
  intros Htext. cbv zeta. unfold run, completion.
  rewrite setStopLoading_page. cbv zeta. fold (defaulted errorMsg). rewrite Htext.
  unfold shown, hidden. simpl.
  destruct isError; repeat split; try reflexivity; try discriminate;
    try (left; split; reflexivity); try (right; split; reflexivity).
Qed.

(** C8.  [setStopLoading(true, "boom")] leaves the error region shown with
    details text [boom] (loading and result hidden, submit enabled);
    [setStopLoading(true)] puts the default of the parameter,
    [Unknown error] followed by the crying-face emoji, in the details. *)
Theorem setStopLoading_error_message (w : World) :
  let boom := run (setStopLoading true (JString "boom")) w in
  let bare := run (setStopLoading true JUndefined) w in
  (shown (error_display (page boom))
   /\ error_details_innerText (page boom) = "boom"
   /\ hidden (loading_display (page boom))
   /\ hidden (result_display (page boom))
   /\ form_submit_disabled (page boom) = false)
  /\ (shown (error_display (page bare))
      /\ error_details_innerText (page bare) = "Unknown error 😢"
      /\ hidden (loading_display (page bare))
      /\ hidden (result_display (page bare))
      /\ form_submit_disabled (page bare) = false).
Proof.
  cbv zeta. unfold run.
  rewrite !setStopLoading_page.
  unfold shown, hidden. simpl. repeat split.
Qed.

(** ** The request lifecycle, step by step *)

Lemma stops_app (cs ds : list Call) : stops (cs ++ ds) = stops cs ++ stops ds.
Proof. apply filter_app. Qed.

Lemma onGenerateError_loading (url : string) (arg : JSValue) (text : string) (w : World) :
  DOMString_of (match arg with JUndefined => JString default_errorMsg | _ => arg end)
    = Normal text ->
  onGenerateError arg (loading_world url w) = (Normal tt, failure_world url arg text w).
Proof.
  intros H. unfold onGenerateError. rewrite setStopLoading_page. cbv zeta.
  rewrite H. unfold failure_world, loading_world. simpl.
  rewrite <- app_assoc. reflexivity.
Qed.

(** The callback of the success branch: whatever the headers hold, the
    page is released first and the error details are reset; only the
    caption depends on the headers, and stays as it was when reading them
    throws. *)
Lemma onBlob_world (response : Response) (myBlob : string) (w : World) :
  exists c caption',
    onBlob response myBlob w =
    (c, {| page := {| form_submit_disabled := false;
                      loading_display := "none";
                      result_display := "block";
                      error_display := "none";
                      error_details_innerText := default_errorMsg;
                      result_image_src := ObjectURL (length (object_urls w));
                      result_caption_innerHTML := caption' |};
           object_urls := object_urls w ++ [myBlob];
           calls := calls w ++ [CallSetStopLoading false JUndefined] |}).
Proof.
  unfold onBlob. unfold bind at 1. rewrite setStopLoading_page. cbv zeta.
  cbn [DOMString_of ToString].
  unfold_script. simpl. case_completions; eauto.
Qed.

Lemma onResponse_returns (response : Response) (w : World) :
  fst (onResponse response w) = Normal tt.
Proof.
  unfold onResponse, then_, catch_, bind, ret.
  destruct (ok response); repeat case_innermost; reflexivity.
Qed.

(** [handleGeneration] up to the settling of [fetch]. *)
Lemma handleGeneration_steps (network : string -> Settled Response)
      (background text_model blur : option string) (w : World) :
  let url := build_url background text_model blur in
  handleGeneration network background text_model blur w =
  match network url with
  | Rejected _ =>
      (Normal tt, failure_world url (JString "Unknown error") "Unknown error" w)
  | Fulfilled response =>
      (Normal tt, snd (onResponse response (loading_world url w)))
  end.
Proof.
  intros url. unfold handleGeneration. fold url.
  assert (Hstart : forall A (k : Settled Response -> M A),
             (setStartLoading ;; response <- fetch network url ;; k response) w
             = k (network url) (loading_world url w)).
  { intros A k. unfold_script. simpl. unfold loading_world.
    rewrite <- app_assoc. reflexivity. }
  rewrite Hstart. unfold bind, then_, catch_, ret.
  destruct (network url) as [response|r].
  - pose proof (onResponse_returns response (loading_world url w)) as Hr.
    destruct (onResponse response (loading_world url w)) as [c w1].
    simpl in Hr. subst c. reflexivity.
  - rewrite (@onGenerateError_loading url (JString "Unknown error") "Unknown error" w);
      reflexivity.
Qed.

(** The success branch with a body that was read. *)
Lemma onResponse_blob (response : Response) (myBlob : string) (w : World) :
  ok response = true -> body response = Fulfilled myBlob ->
  snd (onResponse response w) = snd (onBlob response myBlob w).
Proof.
  intros Hok Hbody. unfold onResponse, bind, then_, ret, blob.
  rewrite Hok, Hbody. destruct (onBlob response myBlob w) as [[|] ?]; reflexivity.
Qed.

(** The success branch with a body whose reading failed: nothing runs. *)
Lemma onResponse_blob_rejected (response : Response) (reason : JSError) (w : World) :
  ok response = true -> body response = Rejected reason ->
  snd (onResponse response w) = w.
Proof.
  intros Hok Hbody. unfold onResponse, bind, then_, ret, blob.
  rewrite Hok, Hbody. reflexivity.
Qed.

(** The failure branch, by what [response.json()] and [json.error] give. *)
Lemma onResponse_error_value (response : Response) (v e : JSValue) (text : string)
      (url : string) (w : World) :
  ok response = false -> json response = Fulfilled v -> Get v "error" = Normal e ->
  DOMString_of (match e with JUndefined => JString default_errorMsg | _ => e end)
    = Normal text ->
  snd (onResponse response (loading_world url w)) = failure_world url e text w.
Proof.
  intros Hok Hjson Hget Htext. unfold onResponse, bind, then_, catch_, ret, lift.
  rewrite Hok, Hjson, Hget.
  rewrite (onGenerateError_loading url e w Htext). reflexivity.
Qed.

Lemma onResponse_error_fallback (response : Response) (url : string) (w : World) :
  ok response = false ->
  (exists reason, json response = Rejected reason)
  \/ (exists v reason, json response = Fulfilled v /\ Get v "error" = Throw reason) ->
  snd (onResponse response (loading_world url w))
  = failure_world url (JString "Unknown error") "Unknown error" w.
Proof.
  intros Hok H. unfold onResponse, bind, then_, catch_, ret, lift. rewrite Hok.
  destruct H as [[reason Hjson] | (v & reason & Hjson & Hget)].
  - rewrite Hjson.
    rewrite (@onGenerateError_loading url (JString "Unknown error") "Unknown error" w);
      reflexivity.
  - rewrite Hjson, Hget.
    rewrite (@onGenerateError_loading url (JString "Unknown error") "Unknown error" w);
      reflexivity.
Qed.

(** ** The request builder *)

Lemma avoids_app (sep : ascii) (a b : string) :
  avoids sep (a ++ b) = avoids sep a && avoids sep b.
Proof.
  induction a as [|c a IH]; simpl; [reflexivity|].
  rewrite IH. apply andb_assoc.
Qed.

Lemma cut_at_avoids (sep : ascii) (a b : string) :
  avoids sep a = true -> cut_at sep (a ++ String sep b) = (a, b).
Proof.
  induction a as [|c a IH]; simpl; intros H.
  - rewrite Ascii.eqb_refl. reflexivity.
  - apply andb_prop in H. destruct H as [Hc Ha].
    apply negb_true_iff in Hc. rewrite Hc, (IH Ha). reflexivity.
Qed.

Lemma split_on_whole (sep : ascii) (a : string) :
  avoids sep a = true -> split_on sep a = [a].
Proof.
  induction a as [|c a IH]; simpl; intros H; [reflexivity|].
  apply andb_prop in H. destruct H as [Hc Ha].
  apply negb_true_iff in Hc. rewrite Hc, (IH Ha). reflexivity.
Qed.

Lemma split_on_avoids (sep : ascii) (a b : string) :
  avoids sep a = true -> split_on sep (a ++ String sep b) = a :: split_on sep b.
Proof.
  induction a as [|c a IH]; simpl; intros H.
  - rewrite Ascii.eqb_refl. reflexivity.
  - apply andb_prop in H. destruct H as [Hc Ha].
    apply negb_true_iff in Hc. rewrite Hc, (IH Ha). reflexivity.
Qed.

(** The serialiser never writes a delimiter of the query syntax. *)
Lemma avoids_encode_byte (c : ascii) :
  avoids "&" (encode_byte c) = true /\ avoids "=" (encode_byte c) = true.
Proof.
  destruct c as [[] [] [] [] [] [] [] []]; split; reflexivity.
Qed.

Lemma avoids_encode (s : string) :
  avoids "&" (encode s) = true /\ avoids "=" (encode s) = true.
Proof.
  induction s as [|c s [IH1 IH2]]; simpl; [split; reflexivity|].
  rewrite !avoids_app, IH1, IH2.
  destruct (avoids_encode_byte c) as [H1 H2]. rewrite H1, H2. split; reflexivity.
Qed.

Lemma plus_to_space_app (a b : string) :
  plus_to_space (a ++ b) = (plus_to_space a ++ plus_to_space b)%string.
Proof.
  induction a as [|c a IH]; simpl; [reflexivity|]. rewrite IH. reflexivity.
Qed.

Lemma percent_decode_encode_byte (c : ascii) (rest : string) :
  percent_decode (plus_to_space (encode_byte c) ++ rest) = String c (percent_decode rest).
Proof.
  destruct c as [[] [] [] [] [] [] [] []]; reflexivity.
Qed.

(** Decoding undoes encoding, for every sequence of bytes. *)
Lemma decode_encode (s : string) : decode (encode s) = s.
Proof.
  unfold decode. induction s as [|c s IH]; simpl; [reflexivity|].
  rewrite plus_to_space_app, percent_decode_encode_byte, IH. reflexivity.
Qed.

Lemma parse_piece_serialize_pair (p : string * string) :
  parse_piece (serialize_pair p) = [p].
Proof.
  destruct p as [name value]. unfold serialize_pair, parse_piece. simpl.
  destruct (avoids_encode name) as [_ Hname].
  assert (Hcut : cut_at "=" (encode name ++ String "=" (encode value))
                 = (encode name, encode value))
    by (apply cut_at_avoids; exact Hname).
  destruct (encode name ++ String "=" (encode value))%string eqn:E.
  - destruct (encode name); discriminate E.
  - rewrite Hcut, !decode_encode. reflexivity.
Qed.

Lemma avoids_serialize_pair (p : string * string) :
  avoids "&" (serialize_pair p) = true.
Proof.
  unfold serialize_pair. rewrite !avoids_app.
  destruct (avoids_encode (fst p)) as [H1 _], (avoids_encode (snd p)) as [H2 _].
  rewrite H1, H2. reflexivity.
Qed.

(** What the serialiser writes, the parser reads back: the same pairs in
    the same order. *)
Lemma parse_toString (params : list (string * string)) :
  parse (toString params) = params.
Proof.
  unfold parse, toString.
  induction params as [|p [|q params] IH].
  - reflexivity.
  - simpl. rewrite split_on_whole by apply avoids_serialize_pair.
    simpl. rewrite parse_piece_serialize_pair. reflexivity.
  - change (String.concat "&" (map serialize_pair (p :: q :: params)))
      with (serialize_pair p ++ String "&" (String.concat "&" (map serialize_pair (q :: params))))%string.
    rewrite split_on_avoids by apply avoids_serialize_pair.
    cbn [flat_map]. rewrite IH, parse_piece_serialize_pair. reflexivity.
Qed.

Lemma build_queryParams_present (background text_model blur : option string) :
  build_queryParams background text_model blur
  = present "background" background ++ present "text_model" text_model
      ++ present "blur" blur.
Proof.
  destruct background as [[|? ?]|], text_model as [[|? ?]|], blur as [[|? ?]|];
    reflexivity.
Qed.

(** C4.  For every combination of the three inputs, reading the built URL
    back gives the path [/generate/] and one pair per input that is a
    non-empty string, under the names [background], [text_model] and
    [blur], with the input itself as decoded value; an input that is
    absent or empty contributes nothing.  The text of the URL is the path
    followed, when there is at least one pair, by [?] and the pairs
    [name=encoded value] joined with [&].  With only [text_model = gpt] the
    URL is [/generate/?text_model=gpt]. *)
Theorem build_url_query (background text_model blur : option string) :
  let expected := present "background" background
                    ++ present "text_model" text_model ++ present "blur" blur in
  parse_target (build_url background text_model blur) = ("/generate/", expected)
  /\ build_url background text_model blur
     = ("/generate/" ++
        match expected with
        | [] => ""
        | _ :: _ =>
            "?" ++ String.concat "&"
                     (map (fun p => fst p ++ "=" ++ encode (snd p)) expected)
        end)%string
  /\ build_url None (Some "gpt") None = "/generate/?text_model=gpt".
Proof.
  cbv zeta. unfold build_url. rewrite build_queryParams_present.
  split; [|split].
  - destruct (present "background" background ++ present "text_model" text_model
                ++ present "blur" blur) as [|p ps] eqn:E.
    + reflexivity.
    + cbn [length Nat.ltb Nat.leb]. unfold parse_target.
      cbn [append cut_at Ascii.eqb Bool.eqb].
      rewrite parse_toString. reflexivity.
  - destruct background as [[|? ?]|], text_model as [[|? ?]|], blur as [[|? ?]|];
      reflexivity.
  - reflexivity.
Qed.

(** C5.  With all three inputs absent the URL is exactly [/generate/], and
    that is the URL [handleGeneration] fetches. *)
Theorem build_url_no_params (network : string -> Settled Response) (w : World) :
  build_url None None None = "/generate/"
  /\ exists rest,
      calls (run (handleGeneration network None None None) w)
      = calls w ++ CallSetStartLoading :: CallFetch "/generate/" :: rest.
Proof.
  split; [reflexivity|].
  unfold run. rewrite handleGeneration_steps. cbv zeta.
  change (build_url None None None) with "/generate/".
  destruct (network "/generate/") as [response|r].
  - cbn [snd]. unfold onResponse, bind, then_, catch_, ret, lift, blob.
    destruct (ok response).
    + destruct (body response) as [myBlob|r].
      * destruct (onBlob_world response myBlob (loading_world "/generate/" w))
          as (c & cap & H).
        rewrite H. exists [CallSetStopLoading false JUndefined].
        destruct c; simpl; rewrite <- app_assoc; reflexivity.
      * exists []. reflexivity.
    + destruct (json response) as [v|r].
      * destruct (Get v "error") as [e|e].
        -- unfold onGenerateError. rewrite !setStopLoading_page. cbv zeta.
           destruct (DOMString_of _).
           ++ eexists. simpl. rewrite <- app_assoc. reflexivity.
           ++ rewrite setStopLoading_page. simpl.
              eexists. rewrite <- !app_assoc. reflexivity.
        -- unfold onGenerateError. rewrite setStopLoading_page. simpl.
           eexists. rewrite <- !app_assoc. reflexivity.
      * unfold onGenerateError. rewrite setStopLoading_page. simpl.
        eexists. rewrite <- !app_assoc. reflexivity.
  - eexists. reflexivity.
Qed.

(** ** The response interpreter *)

Lemma failure_world_ends_in_error (url : string) (arg : JSValue) (text : string)
      (w : World) :
  ends_in_error url arg text w (failure_world url arg text w).
Proof. unfold ends_in_error, shown, hidden. simpl. repeat split. Qed.

Lemma parse_credits_header :
  JSON_parse (Some credits_header)
  = Normal (JObject [("url", JString "http://u"); ("first_name", JString "A");
                     ("last_name", JString "B")]).
Proof. vm_compute. reflexivity. Qed.

Lemma parse_parameters_header :
  JSON_parse (Some parameters_header) = Normal (JObject [("text_model", JString "flux")]).
Proof. vm_compute. reflexivity. Qed.

(** C9, as the script has it.  A submission answered with a success
    status, a body that is read, and the two headers of the example: [setStopLoading(false)] is
    the one call that ends the loading, the result region is shown, and
    the caption assigned is the template filled with [http://u], [A], [B]
    and [flux]; it contains [A B] and [flux]. *)
Theorem handleGeneration_success_caption
        (network : string -> Settled Response)
        (background text_model blur : option string) (w : World)
        (response : Response) (myBlob : string) :
  network (build_url background text_model blur) = Fulfilled response ->
  ok response = true ->
  body response = Fulfilled myBlob ->
  headers_get response "x-image-credits" = Some credits_header ->
  headers_get response "x-generation-parameters" = Some parameters_header ->
  let w' := run (handleGeneration network background text_model blur) w in
  calls w' = calls w ++ [CallSetStartLoading;
                         CallFetch (build_url background text_model blur);
                         CallSetStopLoading false JUndefined]
  /\ shown (result_display (page w'))
  /\ hidden (loading_display (page w'))
  /\ hidden (error_display (page w'))
  /\ form_submit_disabled (page w') = false
  /\ result_caption_innerHTML (page w') = caption "http://u" "A" "B" "flux"
  /\ substring_of "A B" (result_caption_innerHTML (page w'))
  /\ substring_of "flux" (result_caption_innerHTML (page w')).
Proof.
  intros Hnet Hok Hbody Hcredits Hparams. cbv zeta.
  unfold run. rewrite handleGeneration_steps. cbv zeta. rewrite Hnet. cbn [snd].
  rewrite (onResponse_blob _ _ Hok Hbody).
  unfold onBlob. unfold bind at 1. rewrite setStopLoading_page. cbv zeta.
  cbn [DOMString_of ToString]. rewrite Hcredits, Hparams.
  rewrite parse_credits_header, parse_parameters_header.
  unfold shown, hidden. simpl. rewrite <- app_assoc. simpl.
  repeat split.
  - exists "Background picture by <a href='http://u'>".
    eexists. reflexivity.
  - exists ("Background picture by <a href='http://u'>A B on Unsplash</a>.<br />"
              ++ LF ++ tabs5 ++ "Generated with ")%string.
    eexists. reflexivity.
Qed.

(** C10, as the script has it.  Whatever [isError] is, a call of
    [setStopLoading] whose message is left out or has a text form writes
    that text into the error details: the string given, or the default
    ([Unknown error] and the crying-face emoji) when none is given.  In
    particular [setStopLoading(false)] writes the default, and so does the
    callback of every successful response, which begins with that call and
    then leaves the details alone while the error region stays hidden. *)
Theorem setStopLoading_overwrites_error_details
        (isError : bool) (errorMsg : JSValue) (text : string) (w : World)
        (response : Response) (myBlob : string) :
  DOMString_of (defaulted errorMsg) = Normal text ->
  error_details_innerText (page (run (setStopLoading isError errorMsg) w)) = text
  /\ (forall message : option string,
         error_details_innerText
           (page (run (setStopLoading isError (message_arg message)) w))
         = match message with Some s => s | None => "Unknown error 😢" end)
  /\ error_details_innerText (page (run (setStopLoading false JUndefined) w))
     = "Unknown error 😢"
  /\ error_details_innerText (page (run (onBlob response myBlob) w)) = "Unknown error 😢"
  /\ hidden (error_display (page (run (onBlob response myBlob) w)))
  /\ (exists rest, calls (run (onBlob response myBlob) w)
                   = calls w ++ CallSetStopLoading false JUndefined :: rest).
Proof.
  intros Htext. unfold run.
  split; [|split].
  - rewrite setStopLoading_page. cbv zeta. fold (defaulted errorMsg).
    rewrite Htext. reflexivity.
  - intros message. rewrite setStopLoading_message. reflexivity.
  - rewrite setStopLoading_page.
    destruct (onBlob_world response myBlob w) as (c & cap & H). rewrite H.
    unfold hidden. simpl. repeat split. exists []. reflexivity.
Qed.

(** C3, as the script has it.  When [fetch] is rejected, the one call that
    ends the loading is [setStopLoading(true, "Unknown error")], the plain
    text without emoji: the error region is shown with exactly that text,
    the loading and result regions are hidden and the submit control is
    enabled again. *)
Theorem handleGeneration_transport_failure
        (network : string -> Settled Response)
        (background text_model blur : option string) (w : World)
        (reason : JSError) :
  network (build_url background text_model blur) = Rejected reason ->
  ends_in_error (build_url background text_model blur)
                (JString "Unknown error") "Unknown error" w
                (run (handleGeneration network background text_model blur) w).
Proof.
  intros Hnet. unfold run. rewrite handleGeneration_steps. cbv zeta.
  rewrite Hnet. apply failure_world_ends_in_error.
Qed.

(** C2, as the script has it.  For a response with a non-success status:
    - when the body parses and its [error] member is a string, that string
      is passed to [setStopLoading(true, _)] and is exactly the details
      text;
    - when reading or parsing the body fails, or the body parses to
      [null], [setStopLoading(true, "Unknown error")] is called and the
      details text is exactly [Unknown error];
    - when the body parses and has no [error] member, [setStopLoading] is
      called with the message left [undefined], so the default of the
      parameter is displayed: [Unknown error] and the crying-face emoji. *)
Theorem handleGeneration_error_response
        (network : string -> Settled Response)
        (background text_model blur : option string) (w : World)
        (response : Response) :
  network (build_url background text_model blur) = Fulfilled response ->
  ok response = false ->
  let url := build_url background text_model blur in
  let w' := run (handleGeneration network background text_model blur) w in
  (forall v msg, json response = Fulfilled v -> Get v "error" = Normal (JString msg) ->
                 ends_in_error url (JString msg) msg w w')
  /\ ((exists reason, json response = Rejected reason)
      \/ (exists v reason, json response = Fulfilled v /\ Get v "error" = Throw reason) ->
      ends_in_error url (JString "Unknown error") "Unknown error" w w')
  /\ (forall v, json response = Fulfilled v -> Get v "error" = Normal JUndefined ->
                ends_in_error url JUndefined "Unknown error 😢" w w').
Proof.
  intros Hnet Hok. cbv zeta.
  unfold run. rewrite handleGeneration_steps. cbv zeta. rewrite Hnet. cbn [snd].
  split; [|split].
  - intros v msg Hjson Hget.
    rewrite (@onResponse_error_value response v (JString msg) msg _ w Hok Hjson Hget)
      by reflexivity.
    apply failure_world_ends_in_error.
  - intros H. rewrite (onResponse_error_fallback _ _ w Hok H).
    apply failure_world_ends_in_error.
  - intros v Hjson Hget.
    rewrite (@onResponse_error_value response v JUndefined default_errorMsg _ w
               Hok Hjson Hget) by reflexivity.
    apply failure_world_ends_in_error.
Qed.

(** C1, where the script falls short.  A response with a success status
    whose body cannot be read rejects [response.blob()]; the success branch
    has no handler for that and does not return the promise, so after
    [setStartLoading] and [fetch] nothing more runs: [setStopLoading] is
    never called and the page stays in the loading state, submit control
    disabled. *)
Theorem handleGeneration_unread_body_stays_loading
        (network : string -> Settled Response)
        (background text_model blur : option string) (w : World)
        (response : Response) (reason : JSError) :
  network (build_url background text_model blur) = Fulfilled response ->
  ok response = true ->
  body response = Rejected reason ->
  let w' := run (handleGeneration network background text_model blur) w in
  calls w' = calls w ++ [CallSetStartLoading;
                         CallFetch (build_url background text_model blur)]
  /\ stops (calls w') = stops (calls w)
  /\ shown (loading_display (page w'))
  /\ form_submit_disabled (page w') = true
  /\ hidden (result_display (page w'))
  /\ hidden (error_display (page w')).
Proof.
  intros Hnet Hok Hbody. cbv zeta.
  unfold run. rewrite handleGeneration_steps. cbv zeta. rewrite Hnet. cbn [snd].
  rewrite (onResponse_blob_rejected _ _ Hok Hbody).
  unfold shown, hidden. simpl. rewrite stops_app. simpl. rewrite app_nil_r.
  repeat split.
Qed.

(** On every other way the request can end, [setStopLoading] is called
    after [setStartLoading]: once when [fetch] is rejected, once when a
    successful body is read, and for a non-success status once, or twice
    when the first call throws while converting a message that has no text
    form. *)
Lemma handleGeneration_releases
      (network : string -> Settled Response)
      (background text_model blur : option string) (w : World) :
  let url := build_url background text_model blur in
  let w' := run (handleGeneration network background text_model blur) w in
  (forall response reason,
      network url = Fulfilled response /\ ok response = true
      /\ body response = Rejected reason -> False) ->
  (exists c, stops (calls w') = stops (calls w) ++ [c]
             \/ stops (calls w')
                = stops (calls w) ++ [c; CallSetStopLoading true (JString "Unknown error")])
  /\ hidden (loading_display (page w'))
  /\ form_submit_disabled (page w') = false.
Proof.
  cbv zeta. intros Hnot.
  unfold run. rewrite handleGeneration_steps. cbv zeta.
  destruct (network (build_url background text_model blur)) as [response|r] eqn:Hnet.
  - cbn [snd]. destruct (ok response) eqn:Hok.
    + destruct (body response) as [myBlob|r] eqn:Hbody.
      * rewrite (onResponse_blob _ _ Hok Hbody).
        destruct (onBlob_world response myBlob
                    (loading_world (build_url background text_model blur) w))
          as (c & cap & H).
        rewrite H. unfold hidden. simpl. rewrite !stops_app. simpl.
        rewrite app_nil_r. repeat split. eexists. left. reflexivity.
      * exfalso. apply (Hnot response r). repeat split; assumption.
    + unfold onResponse, bind, then_, catch_, ret, lift. rewrite Hok.
      unfold onGenerateError.
      destruct (json response) as [v|r]; [destruct (Get v "error") as [e|e]|];
        rewrite ?setStopLoading_page; cbv zeta.
      * destruct (DOMString_of _); [|rewrite setStopLoading_page];
          unfold hidden; simpl; rewrite !stops_app; simpl;
          rewrite ?app_nil_r, <- ?app_assoc; simpl;
          repeat split; eexists; [left | right]; reflexivity.
      * unfold hidden; simpl; rewrite !stops_app; simpl;
          rewrite ?app_nil_r, <- ?app_assoc; simpl;
          repeat split; eexists; left; reflexivity.
      * unfold hidden; simpl; rewrite !stops_app; simpl;
          rewrite ?app_nil_r, <- ?app_assoc; simpl;
          repeat split; eexists; left; reflexivity.
  - unfold hidden. simpl. rewrite !stops_app. simpl.
    repeat split. eexists. left. reflexivity.
Qed.

(** ** The whole run, outcome by outcome *)

Lemma onBlob_exact (response : Response) (myBlob : string) (w : World) :
  onBlob response myBlob w =
  (match render_caption response with
   | Normal _ => Normal tt
   | Throw e => Throw e
   end,
   {| page := {| form_submit_disabled := false;
                 loading_display := "none";
                 result_display := "block";
                 error_display := "none";
                 error_details_innerText := default_errorMsg;
                 result_image_src := ObjectURL (length (object_urls w));
                 result_caption_innerHTML :=
                   match render_caption response with
                   | Normal c => c
                   | Throw _ => result_caption_innerHTML (page w)
                   end |};
      object_urls := object_urls w ++ [myBlob];
      calls := calls w ++ [CallSetStopLoading false JUndefined] |}).
Proof.
  unfold onBlob, render_caption, and_then. unfold bind at 1.
  rewrite setStopLoading_page. cbv zeta. cbn [DOMString_of ToString].
  unfold_script. simpl. case_completions; reflexivity.
Qed.

Lemma handleGeneration_outcome (network : string -> Settled Response)
      (background text_model blur : option string) (w : World) :
  handleGeneration network background text_model blur w
  = (Normal tt, outcome_world network (build_url background text_model blur) w).
Proof.
  rewrite handleGeneration_steps. cbv zeta. unfold outcome_world.
  set (url := build_url background text_model blur).
  destruct (network url) as [response|reason]; [|reflexivity].
  f_equal.
  destruct (ok response) eqn:Hok.
  - destruct (body response) as [myBlob|reason] eqn:Hbody.
    + rewrite (onResponse_blob _ _ Hok Hbody), onBlob_exact.
      unfold success_world, loading_world. simpl. rewrite <- app_assoc. reflexivity.
    + apply (onResponse_blob_rejected _ _ Hok Hbody).
  - destruct (json response) as [v|reason] eqn:Hjson.
    + destruct (Get v "error") as [e|reason] eqn:Hget.
      * destruct (DOMString_of (defaulted e)) as [text|reason] eqn:Htext.
        -- eapply onResponse_error_value; eassumption.
        -- unfold onResponse, bind, then_, catch_, ret, lift, onGenerateError.
           rewrite Hok, Hjson, Hget. rewrite setStopLoading_page. cbv zeta.
           fold (defaulted e). rewrite Htext. rewrite setStopLoading_page.
           unfold retried_failure_world, loading_world. simpl.
           rewrite <- !app_assoc. reflexivity.
      * apply onResponse_error_fallback; [exact Hok|].
        right. exists v, reason. split; assumption.
    + apply onResponse_error_fallback; [exact Hok|].
      left. exists reason. exact Hjson.
Qed.

Ltac case_outcome := unfold outcome_world; repeat case_innermost.

(** X1.  [handleGeneration] never throws, whatever the network answers and
    whatever the response holds: every failure becomes a rejection that is
    handled or dropped.  It first calls [setStartLoading], then [fetch]
    once, with the built URL, and after that nothing but [setStopLoading],
    at most twice: the request is never issued again. *)
Theorem handleGeneration_call_sequence
        (network : string -> Settled Response)
        (background text_model blur : option string) (w : World) :
  completion (handleGeneration network background text_model blur) w = Normal tt
  /\ exists rest,
      calls (run (handleGeneration network background text_model blur) w)
      = calls w ++ CallSetStartLoading
                :: CallFetch (build_url background text_model blur) :: rest
      /\ Forall (fun c => is_stop c = true) rest
      /\ filter is_fetch rest = []
      /\ length rest <= 2.
Proof.
  unfold completion, run. rewrite handleGeneration_outcome. cbn [fst snd].
  split; [reflexivity|].
  case_outcome;
    unfold failure_world, success_world, loading_world, retried_failure_world;
    cbn [calls]; eexists; (split; [reflexivity|]);
    repeat split; repeat constructor.
Qed.

(** X2.  After every run of [handleGeneration], from any page, exactly one
    of the loading, result and error regions is shown and the other two are
    hidden; the submit control is disabled exactly when it is the loading
    region that is shown. *)
Theorem handleGeneration_one_region_shown
        (network : string -> Settled Response)
        (background text_model blur : option string) (w : World) :
  one_region (page (run (handleGeneration network background text_model blur) w)).
Proof.
  unfold run. rewrite handleGeneration_outcome. cbn [snd].
  unfold one_region, shown, hidden.
  case_outcome; cbn;
    solve [ left; repeat split
          | right; left; repeat split
          | right; right; repeat split ].
Qed.

Lemma DOMString_of_throw (e : JSValue) (reason : JSError) :
  ToString e = Throw reason -> DOMString_of (defaulted e) = Throw reason.
Proof. destruct e; simpl; intros H; try discriminate H; exact H. Qed.

Lemma outcome_world_error_value (network : string -> Settled Response) (url : string)
      (w : World) (response : Response) (v e : JSValue) :
  network url = Fulfilled response -> ok response = false ->
  json response = Fulfilled v -> Get v "error" = Normal e ->
  outcome_world network url w
  = match DOMString_of (defaulted e) with
    | Normal text => failure_world url e text w
    | Throw _ => retried_failure_world url e w
    end.
Proof.
  intros Hnet Hok Hjson Hget. unfold outcome_world.
  rewrite Hnet, Hok, Hjson, Hget. reflexivity.
Qed.

Lemma outcome_world_success (network : string -> Settled Response) (url : string)
      (w : World) (response : Response) (myBlob : string) :
  network url = Fulfilled response -> ok response = true ->
  body response = Fulfilled myBlob ->
  outcome_world network url w
  = success_world url myBlob
      (match render_caption response with
       | Normal c => c
       | Throw _ => result_caption_innerHTML (page w)
       end) w.
Proof.
  intros Hnet Hok Hbody. unfold outcome_world. rewrite Hnet, Hok, Hbody. reflexivity.
Qed.

(** X3.  For a response with a non-success status whose body parses, the
    [error] member is displayed through the conversion of the [innerText]
    setter, whatever its JSON type: whenever the member has a text form, one
    call [setStopLoading(true, member)] is made and the details read that
    text.  The default message replaces only [undefined]: a member that is
    [null] is displayed as the empty text, [true] and [false] as these
    words. *)
Theorem handleGeneration_error_value_text
        (network : string -> Settled Response)
        (background text_model blur : option string) (w : World)
        (response : Response) (v e : JSValue) :
  network (build_url background text_model blur) = Fulfilled response ->
  ok response = false ->
  json response = Fulfilled v ->
  Get v "error" = Normal e ->
  let url := build_url background text_model blur in
  let w' := run (handleGeneration network background text_model blur) w in
  (forall text, DOMString_of (defaulted e) = Normal text ->
                ends_in_error url e text w w')
  /\ (e = JNull -> ends_in_error url JNull "" w w')
  /\ (forall b, e = JBool b ->
                ends_in_error url e (if b then "true" else "false") w w').
Proof.
  intros Hnet Hok Hjson Hget. cbv zeta.
  unfold run. rewrite handleGeneration_outcome. cbn [snd].
  erewrite outcome_world_error_value by eassumption.
  split; [|split].
  - intros text Htext. rewrite Htext. apply failure_world_ends_in_error.
  - intros ->. apply failure_world_ends_in_error.
  - intros b ->. apply failure_world_ends_in_error.
Qed.

(** X4.  For a response with a non-success status whose [error] member has
    no text form (its conversion throws), [setStopLoading] is called twice:
    the call with the member throws at the details, the handler of the chain
    then calls [setStopLoading(true, "Unknown error")], and the page ends
    with the error region shown and exactly that plain text. *)
Theorem handleGeneration_error_value_without_text
        (network : string -> Settled Response)
        (background text_model blur : option string) (w : World)
        (response : Response) (v e : JSValue) (reason : JSError) :
  network (build_url background text_model blur) = Fulfilled response ->
  ok response = false ->
  json response = Fulfilled v ->
  Get v "error" = Normal e ->
  ToString e = Throw reason ->
  let w' := run (handleGeneration network background text_model blur) w in
  calls w' = calls w ++ [CallSetStartLoading;
                         CallFetch (build_url background text_model blur);
                         CallSetStopLoading true e;
                         CallSetStopLoading true (JString "Unknown error")]
  /\ shown (error_display (page w'))
  /\ error_details_innerText (page w') = "Unknown error"
  /\ hidden (loading_display (page w'))
  /\ hidden (result_display (page w'))
  /\ form_submit_disabled (page w') = false.
Proof.
  intros Hnet Hok Hjson Hget Hthrow. cbv zeta.
  unfold run. rewrite handleGeneration_outcome. cbn [snd].
  erewrite outcome_world_error_value by eassumption.
  rewrite (@DOMString_of_throw _ _ Hthrow).
  unfold shown, hidden. simpl. repeat split.
Qed.

(** X5.  When the message given to [setStopLoading] has no text form, the
    call throws at the assignment of the details, after the submit control,
    the loading region and the error region were set and before the result
    region is: the details and the result region stay as they were.  Called
    with [isError] true on a page that shows the result, it leaves both the
    error and the result region shown. *)
Theorem setStopLoading_throws_midway
        (isError : bool) (errorMsg : JSValue) (w : World) (reason : JSError) :
  ToString errorMsg = Throw reason ->
  let w' := run (setStopLoading isError errorMsg) w in
  completion (setStopLoading isError errorMsg) w = Throw reason
  /\ form_submit_disabled (page w') = false
  /\ hidden (loading_display (page w'))
  /\ error_display (page w') = (if isError then "block" else "none")
  /\ result_display (page w') = result_display (page w)
  /\ error_details_innerText (page w') = error_details_innerText (page w)
  /\ (isError = true -> shown (result_display (page w)) ->
      shown (error_display (page w')) /\ shown (result_display (page w'))).
Proof.
  intros Hthrow. cbv zeta. unfold run, completion.
  rewrite setStopLoading_page. cbv zeta. fold (defaulted errorMsg).
  rewrite (@DOMString_of_throw _ _ Hthrow). unfold shown, hidden. simpl.
  repeat split; try assumption. subst isError. reflexivity.
Qed.

(** X6.  With a message that is a string or left out, [setStopLoading]
    decides the five things it writes by its arguments alone: the page it
    leaves is the same after [setStartLoading] and after any earlier call of
    [setStopLoading] (even one that threw) as on the page before them.  Of
    two responses that arrive one after the other, the later one decides
    what is shown. *)
Theorem setStopLoading_last_call_wins
        (isError : bool) (message : option string) (w : World)
        (earlier_isError : bool) (earlier_errorMsg : JSValue) :
  let stop := setStopLoading isError (message_arg message) in
  page (run stop (run (setStopLoading earlier_isError earlier_errorMsg) w))
  = page (run stop w)
  /\ page (run stop (run setStartLoading w)) = page (run stop w).
Proof.
  cbv zeta. unfold run. rewrite !setStopLoading_message.
  rewrite setStopLoading_page. cbv zeta.
  split; [destruct (DOMString_of _)|]; reflexivity.
Qed.

(** X7.  For a response with a success status whose body is read, whatever
    its headers hold: the page is released with the result region shown, one
    object URL is created, for exactly the bytes received, and it is what
    the image is pointed at. *)
Theorem handleGeneration_success_image
        (network : string -> Settled Response)
        (background text_model blur : option string) (w : World)
        (response : Response) (myBlob : string) :
  network (build_url background text_model blur) = Fulfilled response ->
  ok response = true ->
  body response = Fulfilled myBlob ->
  let w' := run (handleGeneration network background text_model blur) w in
  calls w' = calls w ++ [CallSetStartLoading;
                         CallFetch (build_url background text_model blur);
                         CallSetStopLoading false JUndefined]
  /\ object_urls w' = object_urls w ++ [myBlob]
  /\ (exists id, result_image_src (page w') = ObjectURL id
                 /\ nth_error (object_urls w') id = Some myBlob
                 /\ nth_error (object_urls w) id = None)
  /\ shown (result_display (page w'))
  /\ hidden (loading_display (page w'))
  /\ hidden (error_display (page w'))
  /\ form_submit_disabled (page w') = false.
Proof.
  intros Hnet Hok Hbody. cbv zeta.
  unfold run. rewrite handleGeneration_outcome. cbn [snd].
  erewrite outcome_world_success by eassumption.
  unfold shown, hidden. simpl. repeat split.
  exists (length (object_urls w)). repeat split.
  - rewrite nth_error_app2 by apply Nat.le_refl. rewrite Nat.sub_diag. reflexivity.
  - apply nth_error_None. apply Nat.le_refl.
Qed.

(** X8.  Unless the response has a success status and its body is read, a
    run leaves the image, the caption and the object URLs exactly as they
    were: every failure keeps the previous picture and caption, out of
    sight. *)
Theorem handleGeneration_failure_keeps_result
        (network : string -> Settled Response)
        (background text_model blur : option string) (w : World) :
  let w' := run (handleGeneration network background text_model blur) w in
  (exists response myBlob,
      network (build_url background text_model blur) = Fulfilled response
      /\ ok response = true /\ body response = Fulfilled myBlob)
  \/ (result_image_src (page w') = result_image_src (page w)
      /\ result_caption_innerHTML (page w') = result_caption_innerHTML (page w)
      /\ object_urls w' = object_urls w
      /\ ~ shown (result_display (page w'))).
Proof.
  cbv zeta. unfold run. rewrite handleGeneration_outcome. cbn [snd].
  unfold outcome_world, shown.
  destruct (network _) as [response|reason] eqn:Hnet.
  - destruct (ok response) eqn:Hok.
    + destruct (body response) as [myBlob|reason] eqn:Hbody.
      * left. exists response, myBlob. repeat split; assumption.
      * right. simpl. repeat split. discriminate.
    + right. repeat case_innermost; simpl; repeat split; discriminate.
  - right. simpl. repeat split. discriminate.
Qed.

(** X9.  For a response with a success status whose body is read but whose
    headers do not yield a caption (a header is missing or is not JSON, the
    credits are [null], a member has no text form): the error thrown in the
    callback goes nowhere.  [handleGeneration] returns normally, the result
    region is shown with the new image, the error region stays hidden, and
    the caption is left as it was before the request. *)
Theorem handleGeneration_unreadable_headers
        (network : string -> Settled Response)
        (background text_model blur : option string) (w : World)
        (response : Response) (myBlob : string) (reason : JSError) :
  network (build_url background text_model blur) = Fulfilled response ->
  ok response = true ->
  body response = Fulfilled myBlob ->
  render_caption response = Throw reason ->
  let w' := run (handleGeneration network background text_model blur) w in
  completion (handleGeneration network background text_model blur) w = Normal tt
  /\ result_caption_innerHTML (page w') = result_caption_innerHTML (page w)
  /\ result_image_src (page w') = ObjectURL (length (object_urls w))
  /\ shown (result_display (page w'))
  /\ hidden (error_display (page w'))
  /\ hidden (loading_display (page w'))
  /\ stops (calls w') = stops (calls w) ++ [CallSetStopLoading false JUndefined].
Proof.
  intros Hnet Hok Hbody Hthrow. cbv zeta.
  unfold run, completion. rewrite handleGeneration_outcome. cbn [fst snd].
  erewrite outcome_world_success by eassumption. rewrite Hthrow.
  unfold shown, hidden. simpl. rewrite stops_app. repeat split.
Qed.

(** A response without the credits header yields no caption:
    [JSON.parse(null)] is [null], and reading [url] of [null] throws. *)
Lemma render_caption_missing_credits (response : Response) :
  headers_get response "x-image-credits" = None ->
  exists reason, render_caption response = Throw reason.
Proof.
  intros H. unfold render_caption. rewrite H.
  change (JSON_parse None) with (Normal JNull).
  unfold and_then at 1.
  destruct (JSON_parse (headers_get response "x-generation-parameters"));
    simpl; eauto.
Qed.

Lemma string_app_assoc (a b c : string) : ((a ++ b) ++ c = a ++ (b ++ c))%string.
Proof. induction a as [|x a IH]; simpl; [reflexivity|]. rewrite IH. reflexivity. Qed.

(** X10.  For a response with a success status whose body is read and whose
    headers parse to objects with string members [url], [first_name],
    [last_name] and [text_model]: the caption assigned is the template with
    these four strings put in as they are.  Nothing is escaped, so markup in
    a member becomes markup of the page. *)
Theorem handleGeneration_caption_verbatim
        (network : string -> Settled Response)
        (background text_model blur : option string) (w : World)
        (response : Response) (myBlob : string)
        (credits info : list (string * JSValue)) (u f l m : string) :
  network (build_url background text_model blur) = Fulfilled response ->
  ok response = true ->
  body response = Fulfilled myBlob ->
  JSON_parse (headers_get response "x-image-credits") = Normal (JObject credits) ->
  JSON_parse (headers_get response "x-generation-parameters") = Normal (JObject info) ->
  own_property "url" credits = Some (JString u) ->
  own_property "first_name" credits = Some (JString f) ->
  own_property "last_name" credits = Some (JString l) ->
  own_property "text_model" info = Some (JString m) ->
  let w' := run (handleGeneration network background text_model blur) w in
  result_caption_innerHTML (page w')
  = ("Background picture by <a href='" ++ u ++ "'>" ++ f ++ " " ++ l
       ++ " on Unsplash</a>.<br />" ++ LF ++ tabs5
       ++ "Generated with " ++ m ++ " on Hugging Face." ++ LF ++ tabs5)%string
  /\ substring_of ("<a href='" ++ u ++ "'>" ++ f ++ " " ++ l ++ " on Unsplash</a>")
                  (result_caption_innerHTML (page w'))
  /\ substring_of ("Generated with " ++ m ++ " on Hugging Face.")
                  (result_caption_innerHTML (page w')).
Proof.
  intros Hnet Hok Hbody Hcredits Hinfo Hu Hf Hl Hm. cbv zeta.
  unfold run. rewrite handleGeneration_outcome. cbn [snd].
  erewrite outcome_world_success by eassumption.
  unfold render_caption. rewrite Hcredits, Hinfo.
  unfold and_then, Get. rewrite Hu, Hf, Hl, Hm. cbn [ToString].
  cbn [success_world page result_caption_innerHTML]. unfold caption.
  split; [reflexivity|]. split.
  - exists "Background picture by ".
    exists (".<br />" ++ LF ++ tabs5 ++ "Generated with " ++ m
              ++ " on Hugging Face." ++ LF ++ tabs5)%string.
    rewrite !string_app_assoc. reflexivity.
  - exists ("Background picture by <a href='" ++ u ++ "'>" ++ f ++ " " ++ l
              ++ " on Unsplash</a>.<br />" ++ LF ++ tabs5)%string.
    exists (LF ++ tabs5)%string.
    rewrite !string_app_assoc. reflexivity.
Qed.

(** ** The click handler *)

Lemma get_set_property (o : list (string * string)) (key value k : string) :
  get_property (set_property o key value) k
  = if String.eqb key k then Some value else get_property o k.
Proof.
  induction o as [|[k0 v0] o IH]; simpl.
  - reflexivity.
  - destruct (String.eqb k0 key) eqn:E; simpl.
    + apply String.eqb_eq in E. subst k0.
      destruct (String.eqb key k); reflexivity.
    + rewrite IH. destruct (String.eqb k0 k) eqn:E2; [|reflexivity].
      destruct (String.eqb key k) eqn:E3; [|reflexivity].
      apply String.eqb_eq in E2, E3. subst. rewrite String.eqb_refl in E.
      discriminate E.
Qed.

(** Reading a property of [Object.fromEntries(entries)] gives the value of
    the last entry of that name. *)
Lemma get_property_fromEntries (entries : list (string * string)) (key : string) :
  get_property (Object_fromEntries entries) key = last_entry key entries.
Proof.
  unfold Object_fromEntries, last_entry.
  change (@None string) with (get_property [] key).
  generalize (@nil (string * string)) as o.
  induction entries as [|entry entries IH]; intros o; simpl; [reflexivity|].
  rewrite IH, get_set_property. reflexivity.
Qed.

Lemma parse_target_build_url (background text_model blur : option string) :
  parse_target (build_url background text_model blur)
  = ("/generate/", present "background" background
                     ++ present "text_model" text_model ++ present "blur" blur).
Proof.
  unfold build_url. rewrite build_queryParams_present.
  destruct (present "background" background ++ present "text_model" text_model
              ++ present "blur" blur) as [|p ps].
  - reflexivity.
  - cbn [length Nat.ltb Nat.leb]. unfold parse_target.
    cbn [append cut_at Ascii.eqb Bool.eqb].
    rewrite parse_toString. reflexivity.
Qed.

(** X11.  A click on the submit control always has its default action
    prevented and always returns [false]; nothing is ever written to the
    console, since [handleGeneration] does not throw.  The request made is
    the one [handleGeneration] makes for the last values the form gives to
    [background], [text_model] and [blur], [undefined] for a name the form
    does not have. *)
Theorem onGenerateClick_spec
        (network : string -> Settled Response) (evt : Event) (w : World) :
  let c := onGenerateClick network evt w in
  defaultPrevented (event c) = true
  /\ target (event c) = target evt
  /\ returned c = false
  /\ console c = []
  /\ after c = run (handleGeneration network
                      (last_entry "background" (target evt))
                      (last_entry "text_model" (target evt))
                      (last_entry "blur" (target evt))) w.
Proof.
  cbv zeta. unfold onGenerateClick, run. cbn [target].
  rewrite !get_property_fromEntries, handleGeneration_outcome.
  repeat split.
Qed.

(** X12.  What the service receives from a click: the target fetched reads
    back as the path [/generate/] and, of all the entries of the form, only
    [background], [text_model] and [blur], each with its last value and
    only when that value is not empty.  Entries under other names are never
    sent, and no value can add or alter a parameter. *)
Theorem onGenerateClick_request
        (network : string -> Settled Response) (evt : Event) (w : World) :
  let entries := target evt in
  exists url rest,
    calls (after (onGenerateClick network evt w))
    = calls w ++ CallSetStartLoading :: CallFetch url :: rest
    /\ filter is_fetch rest = []
    /\ parse_target url
       = ("/generate/",
          present "background" (last_entry "background" entries)
            ++ present "text_model" (last_entry "text_model" entries)
            ++ present "blur" (last_entry "blur" entries)).
Proof.
  cbv zeta. unfold onGenerateClick. cbn [target].
  rewrite !get_property_fromEntries, handleGeneration_outcome. cbn [after].
  assert (Hcalls : forall url, exists rest,
             calls (outcome_world network url w)
             = calls w ++ CallSetStartLoading :: CallFetch url :: rest
             /\ filter is_fetch rest = []).
  { intros url. case_outcome;
      unfold failure_world, success_world, loading_world, retried_failure_world;
      cbn [calls]; eexists; (split; reflexivity). }
  destruct (Hcalls (build_url (last_entry "background" (target evt))
                              (last_entry "text_model" (target evt))
                              (last_entry "blur" (target evt))))
    as (rest & Hrest & Hfetch).
  eexists. exists rest. split; [exact Hrest|]. split; [exact Hfetch|].
  apply parse_target_build_url.
Qed.

(** ** The characters of the request target *)

Lemma all_chars_app (f : ascii -> bool) (a b : string) :
  all_chars f (a ++ b) = all_chars f a && all_chars f b.
Proof.
  induction a as [|c a IH]; simpl; [reflexivity|].
  rewrite IH. apply andb_assoc.
Qed.

Lemma all_chars_encode_byte (c : ascii) :
  all_chars is_target_char (encode_byte c) = true.
Proof. destruct c as [[] [] [] [] [] [] [] []]; reflexivity. Qed.

Lemma all_chars_encode (s : string) : all_chars is_target_char (encode s) = true.
Proof.
  induction s as [|c s IH]; simpl; [reflexivity|].
  rewrite all_chars_app, all_chars_encode_byte, IH. reflexivity.
Qed.

Lemma all_chars_toString (params : list (string * string)) :
  all_chars is_target_char (toString params) = true.
Proof.
  unfold toString.
  assert (Hpair : forall p, all_chars is_target_char (serialize_pair p) = true).
  { intros p. unfold serialize_pair.
    rewrite !all_chars_app, !all_chars_encode. reflexivity. }
  induction params as [|p [|q params] IH].
  - reflexivity.
  - simpl. apply Hpair.
  - change (String.concat "&" (map serialize_pair (p :: q :: params)))
      with (serialize_pair p ++ String "&" (String.concat "&" (map serialize_pair (q :: params))))%string.
    rewrite all_chars_app, Hpair. simpl. exact IH.
Qed.

(** X13.  Whatever the three inputs are, the built URL is made only of
    ASCII letters and digits, the marks [* - . _], and the characters
    [+ % = & ? /]: no space, no [#], no quote and no byte outside ASCII of
    an input reaches the request target as it is. *)
Theorem build_url_characters (background text_model blur : option string) :
  all_chars is_target_char (build_url background text_model blur) = true.
Proof.
  unfold build_url.
  destruct (0 <? length (build_queryParams background text_model blur))%nat.
  - rewrite !all_chars_app, all_chars_toString. reflexivity.
  - reflexivity.
Qed.

End Script.

(** ** Concrete runs *)

(** A stand-in for the text of numbers in the runs below, none of which
    meets a number. *)
Definition literal_text (literal : string) : string := literal.

(** A page with nothing shown yet, before any request. *)
Definition initial_world : World :=
  {| page := {| form_submit_disabled := false;
                loading_display := "none";
                result_display := "none";
                error_display := "none";
                error_details_innerText := "";
                result_image_src := LiteralURL "";
                result_caption_innerHTML := "" |};
     object_urls := [];
     calls := [] |}.

Definition example_headers (name : string) : option string :=
  if String.eqb name "x-image-credits" then Some credits_header
  else if String.eqb name "x-generation-parameters" then Some parameters_header
  else None.

Definition no_headers (name : string) : option string := None.

(** A success status, the two headers of the example and a body of three
    bytes. *)
Definition success_response : Response :=
  {| ok := true; headers_get := example_headers; body := Fulfilled "PNG" |}.

(** A success status whose body cannot be read to its end. *)
Definition unread_body_response : Response :=
  {| ok := true; headers_get := example_headers; body := Rejected TypeError |}.

(** A non-success status with the given body. *)
Definition error_response (text : string) : Response :=
  {| ok := false; headers_get := no_headers; body := Fulfilled text |}.

Definition rate_limited_body : string :=
  ("{" ++ quoted "error" ++ ":" ++ quoted "rate limited" ++ "}")%string.

Definition answer (response : Response) (url : string) : Settled Response :=
  Fulfilled response.

Definition unreachable (url : string) : Settled Response := Rejected TypeError.

(** The example of the specification: background [beach], model [flux],
    blur [1], answered with the example headers. *)
Lemma handleGeneration_success_caption_witness :
  let w' := run (handleGeneration literal_text (answer success_response)
                   (Some "beach") (Some "flux") (Some "1")) initial_world in
  calls w' = [CallSetStartLoading;
              CallFetch "/generate/?background=beach&text_model=flux&blur=1";
              CallSetStopLoading false JUndefined]
  /\ shown (result_display (page w'))
  /\ substring_of "A B" (result_caption_innerHTML (page w'))
  /\ substring_of "flux" (result_caption_innerHTML (page w')).
Proof.
  destruct (@handleGeneration_success_caption literal_text (answer success_response)
              (Some "beach") (Some "flux") (Some "1") initial_world
              success_response "PNG" eq_refl eq_refl eq_refl eq_refl eq_refl)
    as (Hcalls & Hresult & _ & _ & _ & _ & HAB & Hflux).
  repeat split; assumption.
Defined.

(** A request that never reaches the service. *)
Lemma handleGeneration_transport_failure_witness :
  ends_in_error "/generate/" (JString "Unknown error") "Unknown error" initial_world
    (run (handleGeneration literal_text unreachable None None None) initial_world).
Proof.
  exact (@handleGeneration_transport_failure literal_text unreachable None None None
           initial_world TypeError eq_refl).
Defined.

(** The example of the specification: a failure whose body carries the
    message [rate limited]. *)
Lemma handleGeneration_error_response_witness :
  json (error_response rate_limited_body)
  = Fulfilled (JObject [("error", JString "rate limited")])
  /\ ends_in_error "/generate/" (JString "rate limited") "rate limited" initial_world
       (run (handleGeneration literal_text (answer (error_response rate_limited_body))
               None None None) initial_world).
Proof.
  split; [reflexivity|].
  exact (proj1 (@handleGeneration_error_response literal_text
                  (answer (error_response rate_limited_body)) None None None
                  initial_world (error_response rate_limited_body) eq_refl eq_refl)
               (JObject [("error", JString "rate limited")]) "rate limited"
               eq_refl eq_refl).
Defined.

(** A success status whose body is cut short: the page is left loading. *)
Lemma handleGeneration_unread_body_stays_loading_witness :
  let w' := run (handleGeneration literal_text (answer unread_body_response)
                   None None None) initial_world in
  calls w' = [CallSetStartLoading; CallFetch "/generate/"]
  /\ stops (calls w') = []
  /\ shown (loading_display (page w'))
  /\ form_submit_disabled (page w') = true.
Proof.
  destruct (@handleGeneration_unread_body_stays_loading literal_text
              (answer unread_body_response) None None None initial_world
              unread_body_response TypeError eq_refl eq_refl eq_refl)
    as (Hcalls & Hstops & Hloading & Hsubmit & _).
  repeat split; assumption.
Defined.

(** C3 as stated fails: on a transport failure the message passed and
    displayed is [Unknown error] without the emoji, so no call
    [setStopLoading(true, "Unknown error 😢")] is made and the details do
    not read [Unknown error 😢]. *)
Lemma transport_failure_message_counterexample :
  let w' := run (handleGeneration literal_text unreachable None None None)
                initial_world in
  ~ In (CallSetStopLoading true (JString "Unknown error 😢")) (calls w')
  /\ error_details_innerText (page w') <> "Unknown error 😢"
  /\ error_details_innerText (page w') = "Unknown error".
Proof.
  vm_compute. repeat split.
  - intros [H | [H | [H | []]]]; discriminate H.
  - discriminate.
Qed.

(** C2 as stated fails: a non-success response whose body parses to an
    object without an [error] member is not answered with
    [setStopLoading(true, "Unknown error")]; the message is left out, and
    the details read the default [Unknown error 😢], not [Unknown error]. *)
Lemma absent_error_field_counterexample :
  let response := error_response "{}" in
  let w' := run (handleGeneration literal_text (answer response) None None None)
                initial_world in
  ok response = false
  /\ json response = Fulfilled (JObject [])
  /\ Get (JObject []) "error" = Normal JUndefined
  /\ ~ In (CallSetStopLoading true (JString "Unknown error")) (calls w')
  /\ error_details_innerText (page w') <> "Unknown error"
  /\ error_details_innerText (page w') = "Unknown error 😢".
Proof.
  vm_compute. repeat split.
  - intros [H | [H | [H | []]]]; discriminate H.
  - discriminate.
Qed.

(** ** The browser model at work *)

Example JSON_parse_nested :
  JSON.parse ("[1, -2.5e+3, true, null, {" ++ quoted "a" ++ ": []}, "
                ++ quoted "x\né😢" ++ "]")
  = Normal (JArray [JNumber "1"; JNumber "-2.5e+3"; JBool true; JNull;
                    JObject [("a", JArray [])];
                    JString ("x" ++ LF ++ "é😢")]).
Proof. vm_compute. reflexivity. Qed.

Example JSON_parse_rejects :
  map JSON.parse [""; "[1,]"; "01"; "1."; "nul"; "{,}"; "[1 2]"; "1 2"; "'a'";
                  String DQUOTE "abc"]
  = repeat (Throw SyntaxError) 10.
Proof. vm_compute. reflexivity. Qed.

Example JSON_parse_duplicate_member :
  match JSON.parse ("{" ++ quoted "error" ++ ":1," ++ quoted "error" ++ ":2}") with
  | Normal v => Get v "error"
  | Throw e => Throw e
  end = Normal (JNumber "2").
Proof. vm_compute. reflexivity. Qed.

Example ToString_values :
  map (ToString literal_text)
      [JString "a"; JNull; JUndefined; JBool false; JObject [("a", JNull)];
       JArray [JString "a"; JNull; JArray [JBool true; JString "b"]];
       JObject [("toString", JNull)]]
  = [Normal "a"; Normal "null"; Normal "undefined"; Normal "false";
     Normal "[object Object]"; Normal "a,,true,b"; Throw TypeError].
Proof. vm_compute. reflexivity. Qed.

Example encode_reserved :
  URLSearchParams.toString [("background", "sea side"); ("text_model", "a&b=c/é")]
  = "background=sea+side&text_model=a%26b%3Dc%2F%C3%A9".
Proof. vm_compute. reflexivity. Qed.

Example build_url_all_params :
  build_url (Some "beach") (Some "flux") (Some "1")
  = "/generate/?background=beach&text_model=flux&blur=1".
Proof. vm_compute. reflexivity. Qed.

Example build_url_empty_strings : build_url (Some "") None (Some "") = "/generate/".
Proof. vm_compute. reflexivity. Qed.

(** A failure whose body is not JSON falls back to the plain message. *)
Example unparseable_error_body_run :
  ends_in_error "/generate/" (JString "Unknown error") "Unknown error" initial_world
    (run (handleGeneration literal_text (answer (error_response "Bad Gateway"))
            None None None) initial_world).
Proof. vm_compute. repeat split. Qed.

(** A failure whose [error] member has no text form: the first call of
    [setStopLoading] throws at the details, the handler of the chain calls
    it again with the plain message. *)
Example error_without_text_form_run :
  let body := ("{" ++ quoted "error" ++ ":{" ++ quoted "toString" ++ ":1}}")%string in
  let w' := run (handleGeneration literal_text (answer (error_response body))
                   None None None) initial_world in
  stops (calls w')
  = [CallSetStopLoading true (JObject [("toString", JNumber "1")]);
     CallSetStopLoading true (JString "Unknown error")]
  /\ error_details_innerText (page w') = "Unknown error"
  /\ shown (error_display (page w'))
  /\ hidden (result_display (page w')).
Proof. vm_compute. repeat split. Qed.

(** ** Concrete runs of the further properties *)

(** A page that shows the result of an earlier request. *)
Definition result_world : World :=
  {| page := {| form_submit_disabled := false;
                loading_display := "none";
                result_display := "block";
                error_display := "none";
                error_details_innerText := "Unknown error 😢";
                result_image_src := ObjectURL 0;
                result_caption_innerHTML := "Earlier caption" |};
     object_urls := ["JPG"];
     calls := [] |}.

(** A success status and a body, but none of the two headers. *)
Definition bare_success_response : Response :=
  {| ok := true; headers_get := no_headers; body := Fulfilled "PNG" |}.

(** A JSON object whose only member is named [toString]. *)
Definition value_without_text : JSValue := JObject [("toString", JNumber "1")].

Definition null_error_body : string := ("{" ++ quoted "error" ++ ":null}")%string.

Definition textless_error_body : string :=
  ("{" ++ quoted "error" ++ ":{" ++ quoted "toString" ++ ":1}}")%string.

(** A failure whose body is [error: null]: the details are emptied. *)
Lemma handleGeneration_error_value_text_witness :
  ends_in_error "/generate/" JNull "" initial_world
    (run (handleGeneration literal_text (answer (error_response null_error_body))
            None None None) initial_world).
Proof.
  exact (proj1 (proj2
           (@handleGeneration_error_value_text literal_text
              (answer (error_response null_error_body)) None None None initial_world
              (error_response null_error_body) (JObject [("error", JNull)]) JNull
              eq_refl eq_refl eq_refl eq_refl))
           eq_refl).
Defined.

Lemma handleGeneration_error_value_without_text_witness :
  stops (calls (run (handleGeneration literal_text
                       (answer (error_response textless_error_body))
                       None None None) initial_world))
  = [CallSetStopLoading true value_without_text;
     CallSetStopLoading true (JString "Unknown error")]
  /\ error_details_innerText
       (page (run (handleGeneration literal_text
                     (answer (error_response textless_error_body))
                     None None None) initial_world))
     = "Unknown error".
Proof.
  destruct (@handleGeneration_error_value_without_text literal_text
              (answer (error_response textless_error_body)) None None None
              initial_world (error_response textless_error_body)
              (JObject [("error", value_without_text)]) value_without_text TypeError
              eq_refl eq_refl eq_refl eq_refl eq_refl)
    as (Hcalls & _ & Hdetails & _).
  split; [rewrite Hcalls; reflexivity | exact Hdetails].
Defined.

(** On a page that shows a result, an error message without a text form
    leaves the result and the error region both shown. *)
Lemma setStopLoading_throws_midway_witness :
  completion (setStopLoading literal_text true value_without_text) result_world
  = Throw TypeError
  /\ shown (error_display
              (page (run (setStopLoading literal_text true value_without_text)
                         result_world)))
  /\ shown (result_display
              (page (run (setStopLoading literal_text true value_without_text)
                         result_world))).
Proof.
  destruct (@setStopLoading_throws_midway literal_text true value_without_text
              result_world TypeError eq_refl)
    as (Hthrow & _ & _ & _ & _ & _ & Hboth).
  split; [exact Hthrow | exact (Hboth eq_refl eq_refl)].
Defined.

Lemma handleGeneration_success_image_witness :
  let w' := run (handleGeneration literal_text (answer success_response)
                   None None None) result_world in
  object_urls w' = ["JPG"; "PNG"]
  /\ exists id, result_image_src (page w') = ObjectURL id
                /\ nth_error (object_urls w') id = Some "PNG"
                /\ nth_error (object_urls result_world) id = None.
Proof.
  destruct (@handleGeneration_success_image literal_text (answer success_response)
              None None None result_world success_response "PNG"
              eq_refl eq_refl eq_refl)
    as (_ & Hurls & Himage & _).
  split; [exact Hurls | exact Himage].
Defined.

(** A success without headers after an earlier result: the new image under
    the earlier caption, and no error shown. *)
Lemma handleGeneration_unreadable_headers_witness :
  let w' := run (handleGeneration literal_text (answer bare_success_response)
                   None None None) result_world in
  render_caption literal_text bare_success_response = Throw TypeError
  /\ result_caption_innerHTML (page w') = "Earlier caption"
  /\ result_image_src (page w') = ObjectURL 1
  /\ shown (result_display (page w'))
  /\ hidden (error_display (page w')).
Proof.
  destruct (@handleGeneration_unreadable_headers literal_text
              (answer bare_success_response) None None None result_world
              bare_success_response "PNG" TypeError
              eq_refl eq_refl eq_refl eq_refl)
    as (_ & Hcaption & Himage & Hresult & Herror & _).
  repeat split; assumption.
Defined.

Lemma handleGeneration_caption_verbatim_witness :
  result_caption_innerHTML
    (page (run (handleGeneration literal_text (answer success_response)
                  (Some "beach") None None) initial_world))
  = ("Background picture by <a href='http://u'>A B on Unsplash</a>.<br />"
       ++ LF ++ tabs5 ++ "Generated with flux on Hugging Face." ++ LF ++ tabs5)%string.
Proof.
  exact (proj1
           (@handleGeneration_caption_verbatim literal_text (answer success_response)
              (Some "beach") None None initial_world success_response "PNG"
              [("url", JString "http://u"); ("first_name", JString "A");
               ("last_name", JString "B")]
              [("text_model", JString "flux")]
              "http://u" "A" "B" "flux"
              eq_refl eq_refl eq_refl eq_refl eq_refl
              eq_refl eq_refl eq_refl eq_refl)).
Defined.

(** A form with a repeated field, an empty field and a field the script
    does not know: the last [background] is sent, the rest is left out. *)
Example onGenerateClick_form_run :
  let evt := {| defaultPrevented := false;
                target := [("background", "beach"); ("csrf", "token");
                           ("background", "sea side"); ("text_model", "")] |} in
  let c := onGenerateClick literal_text (answer success_response) evt initial_world in
  defaultPrevented (event c) = true
  /\ returned c = false
  /\ console c = []
  /\ calls (after c) = [CallSetStartLoading;
                        CallFetch "/generate/?background=sea+side";
                        CallSetStopLoading false JUndefined].
Proof. vm_compute. repeat split. Qed.

(** ** Runs that bound the statements on [setStopLoading] and on success *)

(** A page that shows the error of an earlier request. *)
Definition failed_world : World :=
  {| page := {| form_submit_disabled := false;
                loading_display := "none";
                result_display := "none";
                error_display := "block";
                error_details_innerText := "rate limited";
                result_image_src := LiteralURL "";
                result_caption_innerHTML := "" |};
     object_urls := [];
     calls := [] |}.

(** With a message that has text, on a page showing a result. *)
Lemma setStopLoading_regions_witness :
  let w' := run (setStopLoading literal_text true (JString "boom")) result_world in
  shown (error_display (page w')) /\ hidden (result_display (page w'))
  /\ hidden (loading_display (page w')) /\ form_submit_disabled (page w') = false.
Proof.
  destruct (@setStopLoading_regions literal_text true (JString "boom") "boom"
              result_world eq_refl)
    as (_ & Hloading & Hsubmit & Herror & _ & _ & Hresult & _).
  cbv zeta.
  split; [exact (proj2 Herror eq_refl)|].
  split; [exact (proj2 Hresult eq_refl)|].
  split; [exact Hloading | exact Hsubmit].
Defined.

(** C6 as stated fails: called with [isError] true and a message without
    text form on a page that shows a result, [setStopLoading] throws at the
    details and never hides the result region, so the error region and the
    result region are both shown. *)
Lemma setStopLoading_regions_counterexample :
  let w' := run (setStopLoading literal_text true value_without_text) result_world in
  completion (setStopLoading literal_text true value_without_text) result_world
  = Throw TypeError
  /\ shown (error_display (page w'))
  /\ shown (result_display (page w'))
  /\ ~ hidden (result_display (page w')).
Proof. vm_compute. repeat split. discriminate. Qed.

(** A string given with [isError] false is written all the same. *)
Lemma setStopLoading_overwrites_error_details_witness :
  error_details_innerText
    (page (run (setStopLoading literal_text false (JString "rate limited"))
               initial_world))
  = "rate limited".
Proof.
  exact (proj1 (@setStopLoading_overwrites_error_details literal_text false
                  (JString "rate limited") "rate limited" initial_world
                  success_response "PNG" eq_refl)).
Defined.

(** C10 as stated fails: a call with a message without text form throws
    before the details are written, which therefore keep the text of the
    earlier error. *)
Lemma setStopLoading_overwrites_error_details_counterexample :
  let w' := run (setStopLoading literal_text true value_without_text) failed_world in
  completion (setStopLoading literal_text true value_without_text) failed_world
  = Throw TypeError
  /\ ToString literal_text value_without_text = Throw TypeError
  /\ error_details_innerText (page w') = "rate limited"
  /\ error_details_innerText (page w') = error_details_innerText (page failed_world).
Proof. vm_compute. repeat split. Qed.

(** C9 as stated fails: a response with a success status and the two
    headers of the example, whose body is not read to its end, is followed
    by no call of [setStopLoading]; the result region is not shown and no
    caption is assigned. *)
Lemma handleGeneration_success_caption_counterexample :
  let w' := run (handleGeneration literal_text (answer unread_body_response)
                   (Some "beach") (Some "flux") (Some "1")) initial_world in
  ok unread_body_response = true
  /\ headers_get unread_body_response "x-image-credits" = Some credits_header
  /\ headers_get unread_body_response "x-generation-parameters" = Some parameters_header
  /\ ~ In (CallSetStopLoading false JUndefined) (calls w')
  /\ ~ shown (result_display (page w'))
  /\ result_caption_innerHTML (page w') = ""
  /\ ~ substring_of "A B" (result_caption_innerHTML (page w'))
  /\ ~ substring_of "flux" (result_caption_innerHTML (page w')).
Proof.
  vm_compute. repeat split.
  - intros [H | [H | []]]; discriminate H.
  - discriminate.
  - intros (before & rest & H). destruct before; discriminate H.
  - intros (before & rest & H). destruct before; discriminate H.
Qed.
